(** * tender_scraper: a shallow embedding of [scraper1.py]

    The development follows the layout of the script: Python string
    primitives, the binary64 arithmetic behind [int(float(...))], the
    BeautifulSoup tree and its navigation, the fetcher, the extractors and
    the orchestrating [__main__] block.

    Scope of the model.
    - A Python [str] is a Rocq [string] holding the UTF-8 encoding of the
      text.  Whitespace, digits and letter case are the ASCII ones.
    - The HTML parser is a parameter; every extractor works on the tree it
      returns.  The tree has elements and text only.
    - The portal is a deterministic function from the requests issued so
      far and the requested URL to a reply.
    - MongoDB, the file system and the mail relay never fail. *)

From Stdlib Require Import ZArith List String Ascii Bool Lia.
From Stdlib Require Import DecimalString.
Import ListNotations.

Local Open Scope string_scope.
Local Open Scope Z_scope.

(** ** Python string primitives *)

Module PyStr.

(** [str.isspace] on the ASCII repertoire: TAB LF VT FF CR, FS GS RS US, SPACE. *)
Definition is_space (c : ascii) : bool :=
  let n := nat_of_ascii c in
  ((9 <=? n) && (n <=? 13) || (28 <=? n) && (n <=? 32))%nat.

Definition is_digit (c : ascii) : bool :=
  let n := nat_of_ascii c in ((48 <=? n) && (n <=? 57))%nat.

Definition is_lower (c : ascii) : bool :=
  let n := nat_of_ascii c in ((97 <=? n) && (n <=? 122))%nat.

Definition is_upper (c : ascii) : bool :=
  let n := nat_of_ascii c in ((65 <=? n) && (n <=? 90))%nat.

Definition is_alnum (c : ascii) : bool := is_digit c || is_lower c || is_upper c.

Definition upper_char (c : ascii) : ascii :=
  if is_lower c then ascii_of_nat (nat_of_ascii c - 32) else c.

Definition lower_char (c : ascii) : ascii :=
  if is_upper c then ascii_of_nat (nat_of_ascii c + 32) else c.

Fixpoint map_chars (f : ascii -> ascii) (s : string) : string :=
  match s with
  | EmptyString => EmptyString
  | String c r => String (f c) (map_chars f r)
  end.

(** [s.upper()] and [s.lower()]. *)
Definition upper (s : string) : string := map_chars upper_char s.
Definition lower (s : string) : string := map_chars lower_char s.

(** [s.lstrip()], [s.rstrip()], [s.strip()]. *)
Fixpoint lstrip (s : string) : string :=
  match s with
  | EmptyString => EmptyString
  | String c r => if is_space c then lstrip r else s
  end.

Fixpoint rstrip (s : string) : string :=
  match s with
  | EmptyString => EmptyString
  | String c r =>
      match rstrip r with
      | EmptyString => if is_space c then EmptyString else String c EmptyString
      | t => String c t
      end
  end.

Definition strip (s : string) : string := rstrip (lstrip s).

(** [s.startswith(p)], returning the remainder after the prefix. *)
Fixpoint drop_prefix (p s : string) : option string :=
  match p, s with
  | EmptyString, _ => Some s
  | String a p', String b s' => if Ascii.eqb a b then drop_prefix p' s' else None
  | String _ _, EmptyString => None
  end.

(** [sub in s]. *)
Fixpoint contains (sub s : string) : bool :=
  match drop_prefix sub s with
  | Some _ => true
  | None => match s with
            | EmptyString => false
            | String _ r => contains sub r
            end
  end.

(** [s.replace(old, new)] for a non-empty [old]: leftmost occurrences, not
    overlapping.  [fuel] bounds the characters still to be skipped after a
    match, which lets the recursion stay structural. *)
Fixpoint replace_from (skip : nat) (old new s : string) : string :=
  match s with
  | EmptyString => EmptyString
  | String c r =>
      match skip with
      | S k => replace_from k old new r
      | O =>
          match drop_prefix old s with
          | Some _ => new ++ replace_from (String.length old - 1) old new r
          | None => String c (replace_from O old new r)
          end
      end
  end.

Definition replace (old new s : string) : string := replace_from O old new s.

(** [s.split(sep)] for a one-character separator. *)
Fixpoint split_on (sep : ascii) (s : string) : list string :=
  match s with
  | EmptyString => [EmptyString]
  | String c r =>
      if Ascii.eqb c sep then EmptyString :: split_on sep r
      else match split_on sep r with
           | [] => [String c EmptyString]
           | w :: ws => String c w :: ws
           end
  end.

(** [s.split()] without arguments: the maximal runs of non-space characters. *)
Fixpoint words_from (cur : string) (s : string) : list string :=
  match s with
  | EmptyString => match cur with EmptyString => [] | _ => [cur] end
  | String c r =>
      if is_space c
      then match cur with
           | EmptyString => words_from EmptyString r
           | _ => cur :: words_from EmptyString r
           end
      else words_from (cur ++ String c EmptyString) r
  end.

Definition words (s : string) : list string := words_from EmptyString s.

(** [s.title()]: a cased character is upper-cased after an uncased one and
    lower-cased after a cased one. *)
Fixpoint title_from (prev_cased : bool) (s : string) : string :=
  match s with
  | EmptyString => EmptyString
  | String c r =>
      let cased := is_lower c || is_upper c in
      String (if prev_cased then lower_char c else upper_char c)
             (title_from cased r)
  end.

Definition title (s : string) : string := title_from false s.

(** [re.sub(r'[^a-zA-Z0-9]', '_', s)]. *)
Definition sanitize (s : string) : string :=
  map_chars (fun c => if is_alnum c then c else "_"%char) s.

(** [str(n)] for an integer. *)
Definition of_Z (n : Z) : string := NilZero.string_of_int (Z.to_int n).

(** [''.join(l)]. *)
Definition join (l : list string) : string := fold_right String.append EmptyString l.

End PyStr.

(** ** Exceptions and results *)

Inductive exn : Type :=
| IndexError
| ValueError
| OverflowError
| RequestException
| SystemExit (code : Z).

Inductive res (A : Type) : Type :=
| Ret (a : A)
| Raise (e : exn).
Arguments Ret {A} a.
Arguments Raise {A} e.

(** ** [float(s)] and [int(x)]: binary64 with exact integer arithmetic *)

Module PyFloat.

(** A binary64 value; a finite one is [(-1)^neg * m * 2^e] with
    [0 <= m < 2^53] and [-1074 <= e <= 971]. *)
Inductive float : Type :=
| NaN
| Inf (neg : bool)
| Fin (neg : bool) (m e : Z).

(** The integer [k] with [2^k <= num/den < 2^(k+1)], for positive [num], [den]. *)
Definition ilog2_ratio (num den : Z) : Z :=
  let k := Z.log2 num - Z.log2 den in
  if (if 0 <=? k then den * 2 ^ k <=? num else den <=? num * 2 ^ (- k))
  then k else k - 1.

(** Round the positive rational [num/den] to the nearest binary64, ties to
    even; magnitudes from [2^1024 - 2^970] on round to infinity. *)
Definition round_ratio (neg : bool) (num den : Z) : float :=
  if num <=? 0 then Fin neg 0 0 else
  let e := Z.max (ilog2_ratio num den - 52) (-1074) in
  let n := if 0 <=? e then num else num * 2 ^ (- e) in
  let d := if 0 <=? e then den * 2 ^ e else den in
  let q := n / d in
  let r := n mod d in
  let up := (d <? 2 * r) || ((d =? 2 * r) && Z.odd q) in
  let q' := if up then q + 1 else q in
  let '(m, e') := if q' =? 2 ^ 53 then (2 ^ 52, e + 1) else (q', e) in
  if 971 <? e' then Inf neg else Fin neg m e'.

(** The value of a run of decimal digits. *)
Fixpoint digits_value (acc : Z) (s : string) : Z :=
  match s with
  | EmptyString => acc
  | String c r => digits_value (10 * acc + (Z.of_nat (nat_of_ascii c) - 48)) r
  end.

(** The longest prefix of decimal digits, and what follows it. *)
Fixpoint span_digits (s : string) : string * string :=
  match s with
  | EmptyString => (EmptyString, EmptyString)
  | String c r =>
      if PyStr.is_digit c
      then let '(d, rest) := span_digits r in (String c d, rest)
      else (EmptyString, s)
  end.

(** Underscores are accepted between two digits only, and dropped. *)
Fixpoint drop_underscores (prev : option ascii) (s : string) : option string :=
  match s with
  | EmptyString =>
      match prev with
      | Some "_"%char => None
      | _ => Some EmptyString
      end
  | String c r =>
      if Ascii.eqb c "_"
      then match prev with
           | Some p => if PyStr.is_digit p then drop_underscores (Some c) r else None
           | None => None
           end
      else match prev with
           | Some "_"%char =>
               if PyStr.is_digit c
               then option_map (String c) (drop_underscores (Some c) r)
               else None
           | _ => option_map (String c) (drop_underscores (Some c) r)
           end
  end.

Definition split_sign (s : string) : bool * string :=
  match s with
  | String "-" r => (true, r)
  | String "+" r => (false, r)
  | _ => (false, s)
  end.

(** The optional exponent part: nothing, or [e], an optional sign and at
    least one digit, up to the end of the text. *)
Definition parse_exponent (s : string) : option Z :=
  match s with
  | EmptyString => Some 0
  | String c r =>
      if Ascii.eqb c "e" || Ascii.eqb c "E"
      then let '(neg, r') := split_sign r in
           match span_digits r' with
           | (String d ds, EmptyString) =>
               let v := digits_value 0 (String d ds) in
               Some (if neg then - v else v)
           | _ => None
           end
      else None
  end.

(** A decimal literal: digits with an optional point, at least one digit
    in all, then the optional exponent. *)
Definition parse_decimal (neg : bool) (s : string) : option float :=
  let '(ip, r1) := span_digits s in
  let '(fp, r2) := match r1 with
                   | String "." r => span_digits r
                   | _ => (EmptyString, r1)
                   end in
  match ip ++ fp with
  | EmptyString => None
  | ds =>
      match parse_exponent r2 with
      | None => None
      | Some x =>
          let m := digits_value 0 ds in
          let e10 := x - Z.of_nat (String.length fp) in
          Some (if 0 <=? e10 then round_ratio neg (m * 10 ^ e10) 1
                else round_ratio neg m (10 ^ (- e10)))
      end
  end.

(** [float(s)] for a string; [None] stands for the [ValueError]. *)
Definition of_string (s : string) : option float :=
  match drop_underscores None (PyStr.strip s) with
  | None => None
  | Some t =>
      let '(neg, body) := split_sign t in
      let l := PyStr.lower body in
      if String.eqb l "inf" || String.eqb l "infinity" then Some (Inf neg)
      else if String.eqb l "nan" then Some NaN
      else parse_decimal neg body
  end.

(** [int(x)] for a float: truncation toward zero. *)
Definition to_int (x : float) : res Z :=
  match x with
  | NaN => Raise ValueError
  | Inf _ => Raise OverflowError
  | Fin neg m e =>
      let a := if 0 <=? e then m * 2 ^ e else m / 2 ^ (- e) in
      Ret (if neg then - a else a)
  end.

End PyFloat.

(** ** The BeautifulSoup tree and its navigation *)

Module Soup.

(** A parsed page: elements with attributes and children, and text. *)
#[warnings="-register-all"]
Inductive node : Type :=
| Text (s : string)
| Elem (name : string) (attrs : list (string * string)) (kids : list node).

(** The [BeautifulSoup] object itself, which holds the top-level nodes. *)
Definition document (kids : list node) : node := Elem "[document]" [] kids.

Definition children (n : node) : list node :=
  match n with
  | Text _ => []
  | Elem _ _ kids => kids
  end.

(** [tag.descendants]: everything below the node, in document order. *)
Fixpoint descendants (n : node) : list node :=
  match n with
  | Text _ => []
  | Elem _ _ kids =>
      (fix go (l : list node) : list node :=
         match l with
         | [] => []
         | k :: rest => k :: (descendants k ++ go rest)%list
         end) kids
  end.

(** The text nodes at or below a node, in document order. *)
Fixpoint strings (n : node) : list string :=
  match n with
  | Text s => [s]
  | Elem _ _ kids =>
      (fix go (l : list node) : list string :=
         match l with
         | [] => []
         | k :: rest => (strings k ++ go rest)%list
         end) kids
  end.

Definition nonempty (s : string) : bool :=
  match s with EmptyString => false | _ => true end.

(** [tag.get_text(strip=True)]: every string stripped, the empty ones
    dropped, the rest joined without a separator. *)
Definition get_text_strip (n : node) : string :=
  PyStr.join (filter nonempty (map PyStr.strip (strings n))).

Fixpoint assoc (k : string) (l : list (string * string)) : option string :=
  match l with
  | [] => None
  | (k', v) :: r => if String.eqb k k' then Some v else assoc k r
  end.

(** [tag[k]] where [tag.has_attr(k)]. *)
Definition attr (k : string) (n : node) : option string :=
  match n with
  | Text _ => None
  | Elem _ a _ => assoc k a
  end.

Definition is_tag (name : string) (n : node) : bool :=
  match n with
  | Text _ => false
  | Elem nm _ _ => String.eqb nm name
  end.

(** [class_=c]: the class attribute is split at whitespace and one of its
    values is [c]. *)
Definition has_class (c : string) (n : node) : bool :=
  match attr "class" n with
  | Some v => existsb (String.eqb c) (PyStr.words v)
  | None => false
  end.

(** [tag.find_all(name)] and [tag.find_all(name, class_=c)]. *)
Definition find_all (name : string) (n : node) : list node :=
  filter (is_tag name) (descendants n).

Definition find_all_class (name c : string) (n : node) : list node :=
  filter (fun x => is_tag name x && has_class c x) (descendants n).

(** [tag.find(name)] and [tag.find(name, class_=c)]. *)
Definition find (name : string) (n : node) : option node :=
  hd_error (find_all name n).

Definition find_class (name c : string) (n : node) : option node :=
  hd_error (find_all_class name c n).

(** [tag.string]: the text of a tag whose only child is a string, or whose
    only child is a tag with such a [string]. *)
Fixpoint tag_string (n : node) : option string :=
  match n with
  | Text s => Some s
  | Elem _ _ [k] => tag_string k
  | Elem _ _ _ => None
  end.

(** A node with its place in the page: the siblings after it, and its
    ancestors from the nearest up, each with the siblings after it. *)
Record loc : Type := mkloc {
  here : node;
  after : list node;
  above : list (node * list node)
}.

Fixpoint locs_from (up : list (node * list node)) (n : node) (sibs : list node)
  : list loc :=
  mkloc n sibs up ::
  match n with
  | Text _ => []
  | Elem _ _ kids =>
      (fix go (l : list node) : list loc :=
         match l with
         | [] => []
         | k :: rest => (locs_from ((n, sibs) :: up) k rest ++ go rest)%list
         end) kids
  end.

(** The places below the root of a page, in document order. *)
Definition locs (root : node) : list loc := tl (locs_from [] root []).

(** [soup.find(name, string=p)] and [soup.find(name, class_=c, string=p)],
    where [p] is applied to [tag.string] and fails on [None]. *)
Definition string_matches (p : string -> bool) (n : node) : bool :=
  match n with
  | Text _ => false
  | Elem _ _ _ => match tag_string n with Some s => p s | None => false end
  end.

Definition find_string (name : string) (p : string -> bool) (root : node)
  : option loc :=
  List.find (fun l => is_tag name (here l) && string_matches p (here l)) (locs root).

Definition find_class_string (name c : string) (p : string -> bool) (root : node)
  : option loc :=
  List.find (fun l => is_tag name (here l) && has_class c (here l)
                      && string_matches p (here l)) (locs root).

(** [tag.find_next_sibling(name)]. *)
Definition next_sibling_of (name : string) (sibs : list node) : option node :=
  List.find (is_tag name) sibs.

Definition find_next_sibling (name : string) (l : loc) : option node :=
  next_sibling_of name (after l).

(** [tag.find_parent(name)], with the siblings after that ancestor. *)
Definition find_parent (name : string) (l : loc) : option (node * list node) :=
  List.find (fun a => is_tag name (fst a)) (above l).

End Soup.

Import Soup.

Definition td (kids : list node) : node := Elem "td" [] kids.
Definition tr (kids : list node) : node := Elem "tr" [] kids.
Definition link (href text : string) : node := Elem "a" [("href", href)] [Text text].

(** ** The world the script runs in *)

(** What the portal answers to one GET: a transport error, or a response. *)
Inductive reply : Type :=
| NetworkError
| Response (status : Z) (text : string).

(** The effects of the script on its surroundings, in the order they happen. *)
Inductive event : Type :=
| EvGet (url : string)
| EvFindOne (tender_id : string) (found : bool)
| EvInsertOne (tender_id : string)
| EvAppend (fragment : string)
| EvSave (filename html : string)
| EvSend (body : string).

(** [db] is the [tenders] collection, one [tender_id] per document;
    [email_body] is the module-level variable of that name. *)
Record world : Type := mkworld {
  history : list event;
  db : list string;
  email_body : string
}.

Definition log (e : event) (w : world) : world :=
  mkworld (history w ++ [e])%list (db w) (email_body w).

Fixpoint requests_of (h : list event) : list string :=
  match h with
  | [] => []
  | EvGet u :: r => u :: requests_of r
  | _ :: r => requests_of r
  end.

Fixpoint saved_of (h : list event) : list (string * string) :=
  match h with
  | [] => []
  | EvSave f c :: r => (f, c) :: saved_of r
  | _ :: r => saved_of r
  end.

Fixpoint inserted_of (h : list event) : list string :=
  match h with
  | [] => []
  | EvInsertOne i :: r => i :: inserted_of r
  | _ :: r => inserted_of r
  end.

(** A computation: it reads and changes the world and returns or raises. *)
Definition M (A : Type) : Type := world -> res A * world.

Definition ret {A} (a : A) : M A := fun w => (Ret a, w).
Definition raise {A} (e : exn) : M A := fun w => (Raise e, w).
Definition bind {A B} (m : M A) (k : A -> M B) : M B :=
  fun w => match m w with
           | (Ret a, w') => k a w'
           | (Raise e, w') => (Raise e, w')
           end.

Notation "x <- m ;; k" := (bind m (fun x => k))
  (at level 61, m at next level, right associativity).
Notation "m ;;; k" := (bind m (fun _ => k))
  (at level 61, right associativity).

(** [try: m  except requests.RequestException: h]. *)
Definition except_request {A} (m : M A) (h : M A) : M A :=
  fun w => match m w with
           | (Raise RequestException, w') => h w'
           | r => r
           end.

(** [for x in l: acc = body(x, acc)]. *)
Fixpoint for_each {A S} (l : list A) (body : A -> S -> M S) (acc : S) : M S :=
  match l with
  | [] => ret acc
  | x :: r => acc' <- body x acc ;; for_each r body acc'
  end.

Definition emit (e : event) : M unit := fun w => (Ret tt, log e w).

(** [email_body += s]. *)
Definition append_body (s : string) : M unit :=
  fun w => (Ret tt, mkworld (history w ++ [EvAppend s])%list (db w) (email_body w ++ s)).

(** [tender_collection.find_one({"tender_id": i})], as a truth value. *)
Definition find_one (i : string) : M bool :=
  fun w => let b := existsb (String.eqb i) (db w) in (Ret b, log (EvFindOne i b) w).

(** [tender_collection.insert_one({"tender_id": i})]. *)
Definition insert_one (i : string) : M unit :=
  fun w => (Ret tt, mkworld (history w ++ [EvInsertOne i])%list (db w ++ [i])%list (email_body w)).

(** ** Constants *)

Definition BASE_URL : string := "https://eproc.rajasthan.gov.in".
Definition MAIN_URL : string :=
  BASE_URL ++ "/nicgep/app?page=FrontEndTendersByOrganisation&service=page".
Definition restart_url : string := BASE_URL ++ "/nicgep/app?service=restart".
Definition expiry_marker : string := "Your session has timed out".

(** [departments_to_search]: the [DEPARTMENTS] variable split at commas,
    every entry stripped. *)
Definition departments_to_search (DEPARTMENTS : string) : list string :=
  map PyStr.strip (PyStr.split_on "," DEPARTMENTS).

Section Scraper.

(** The portal: its reply to a GET, given the URLs requested before. *)
Variable portal : list string -> string -> reply.
(** [BeautifulSoup(html, "html.parser")]. *)
Variable html_parser : string -> node.
(** [int(time.time())], given what has happened so far. *)
Variable time_time : list event -> Z.

(** *** Fetcher *)

(** [session.get(url, headers=headers)]. *)
Definition session_get (url : string) : M (Z * string) :=
  fun w =>
    let w' := log (EvGet url) w in
    match portal (requests_of (history w)) url with
    | NetworkError => (Raise RequestException, w')
    | Response st body => (Ret (st, body), w')
    end.

(** The statuses for which [raise_for_status] raises: 4xx and 5xx. *)
Definition error_status (st : Z) : bool := (400 <=? st) && (st <? 600).

(** [response.raise_for_status()]: an [HTTPError], which is a
    [RequestException], for an error status. *)
Definition raise_for_status (r : Z * string) : M unit :=
  if error_status (fst r) then raise RequestException else ret tt.

Definition fetch_page (url : string) : M (option string) :=
  except_request
    (response <- session_get url ;;
     raise_for_status response ;;;
     response <- (if PyStr.contains expiry_marker (snd response)
                  then session_get restart_url ;;;
                       response <- session_get url ;;
                       raise_for_status response ;;;
                       ret response
                  else ret response) ;;
     ret (Some (snd response)))
    (ret None).

(** *** Diagnostics *)

Definition failed_filename (tender_url : string) (now : Z) : string :=
  "failed_tender_html/failed_" ++ PyStr.sanitize tender_url ++ "_" ++ PyStr.of_Z now ++ ".txt".

Definition save_failed_html (html tender_url : string) : M unit :=
  fun w => emit (EvSave (failed_filename tender_url (time_time (history w))) html) w.

(** *** Structural extractors *)

Definition get_department_table (html : string) : option node :=
  let soup := html_parser html in
  let tables := find_all_class "table" "list_table" soup in
  if (List.length tables <? 3)%nat then None
  else nth_error tables 2.

(** The link of a listing cell: the first [a] below it, when it has an [href]. *)
Definition cell_link (cell : node) : option string :=
  match find "a" cell with
  | Some a_tag =>
      match attr "href" a_tag with
      | Some href => Some (BASE_URL ++ PyStr.strip href)
      | None => None
      end
  | None => None
  end.

Fixpoint department_rows (rows : list node) (dept_name : string) : option string :=
  match rows with
  | [] => None
  | row :: rest =>
      let cells := find_all "td" row in
      match nth_error cells 1, nth_error cells 2 with
      | Some c1, Some c2 =>
          if String.eqb (get_text_strip c1) dept_name
          then match cell_link c2 with
               | Some full_link => Some full_link
               | None => department_rows rest dept_name
               end
          else department_rows rest dept_name
      | _, _ => department_rows rest dept_name
      end
  end.

Definition extract_department_link (department_table : node) (dept_name : string)
  : option string :=
  department_rows (find_all "tr" department_table) dept_name.

Fixpoint tender_rows (rows : list node) : list string :=
  match rows with
  | [] => []
  | row :: rest =>
      match nth_error (find_all "td" row) 4 with
      | Some c4 =>
          match cell_link c4 with
          | Some full_link => full_link :: tender_rows rest
          | None => tender_rows rest
          end
      | None => tender_rows rest
      end
  end.

Definition get_tender_links_from_org_page (org_html : string) : res (list string) :=
  let soup := html_parser org_html in
  match find_all_class "table" "list_table" soup with
  | [] => Raise IndexError
  | table :: _ => Ret (tender_rows (find_all "tr" table))
  end.

(** *** Tender detail page *)

Definition date_labels : list (string * string) :=
  [ ("published_date", "Published Date");
    ("sale_start_date", "Document Download / Sale Start Date");
    ("clarification_start_date", "Clarification Start Date");
    ("bid_submission_start_date", "Bid Submission Start Date");
    ("bid_opening_date", "Bid Opening Date");
    ("sale_end_date", "Sale End Date");
    ("clarification_end_date", "Clarification End Date");
    ("bid_submission_end_date", "Bid Submission End Date") ].

Definition extract_date (soup : node) (label : string) : option string :=
  match find_string "b" (PyStr.contains label) soup with
  | Some b_tag =>
      match find_parent "td" b_tag with
      | Some (_, parent_after) =>
          match next_sibling_of "td" parent_after with
          | Some next_td => Some (get_text_strip next_td)
          | None => None
          end
      | None => None
      end
  | None => None
  end.

Definition get_tender_dates (soup : node) : list (string * option string) :=
  map (fun kl => (fst kl, extract_date soup (snd kl))) date_labels.

(** [re.search(label, text, re.IGNORECASE)] for a label of letters and spaces. *)
Definition search_ignorecase (label text : string) : bool :=
  PyStr.contains (PyStr.lower label) (PyStr.lower text).

Definition extract_value (soup : node) (label : string) : option string :=
  match find_class_string "td" "td_caption" (search_ignorecase label) soup with
  | Some td_loc =>
      match find_next_sibling "td" td_loc with
      | Some sibling => Some (get_text_strip sibling)
      | None => None
      end
  | None => None
  end.

(** The bold text of the second cell of a summary row; [None] where the
    script's [try] block would raise. *)
Definition second_cell_bold (row : node) : option string :=
  match nth_error (find_all "td" row) 1 with
  | Some cell => option_map get_text_strip (find "b" cell)
  | None => None
  end.

Definition get_tender_id_organization_chain (soup : node)
  : option string * option string :=
  match find_class "table" "tablebg" soup with
  | None => (None, None)
  | Some table =>
      let rows := find_all "tr" table in
      match nth_error rows 0, nth_error rows 2 with
      | Some first_row, Some third_row =>
          match second_cell_bold third_row, second_cell_bold first_row with
          | Some tender_id, Some tender_organization_chain =>
              (Some tender_id, Some tender_organization_chain)
          | _, _ => (None, None)
          end
      | _, _ => (None, None)
      end
  end.

(** The dictionary returned for a tender below the threshold. *)
Record tender_record : Type := mkrecord {
  tender_id : option string;
  tender_value : option Z;
  tender_organization_chain : option string;
  tender_type : option string;
  tender_dates : list (string * option string)
}.

(** What [get_tender_value] returns when it does not return [None]: the
    full dictionary, or [{"tender_id": "SKIP"}]. *)
Inductive tender_values : Type :=
| Details (r : tender_record)
| SkipDict.

Definition threshold : Z := 3000000.

(** The text of the cell after the first cell labelled with the tender value. *)
Definition tender_value_text (soup : node) : option string :=
  match find_string "td" (PyStr.contains "Tender Value in ₹") soup with
  | Some label_td =>
      match find_next_sibling "td" label_td with
      | Some value_td => Some (get_text_strip value_td)
      | None => None
      end
  | None => None
  end.

Definition clean_value_text (value_text : string) : string :=
  PyStr.strip (PyStr.replace "₹" "" (PyStr.replace "," "" value_text)).

(** The conversion inside the [try] block: [None] for NA or empty text,
    otherwise [int(float(clean_text))]. *)
Definition convert_tender_value (clean_text : string) : res (option Z) :=
  if String.eqb (PyStr.upper clean_text) "NA" || String.eqb clean_text ""
  then Ret None
  else match PyFloat.of_string clean_text with
       | None => Raise ValueError
       | Some x =>
           match PyFloat.to_int x with
           | Ret n => Ret (Some n)
           | Raise e => Raise e
           end
       end.

(** [tender_value is None or tender_value < 3000000]. *)
Definition below_threshold (tender_value : option Z) : bool :=
  match tender_value with
  | None => true
  | Some v => v <? threshold
  end.

Definition get_tender_value (detail_html : string) : res (option tender_values) :=
  let soup := html_parser detail_html in
  let tender_dates := get_tender_dates soup in
  match tender_value_text soup with
  | Some value_text =>
      let clean_text := clean_value_text value_text in
      match convert_tender_value clean_text with
      | Ret tender_value =>
          if below_threshold tender_value
          then let '(tender_id, tender_organization_chain) :=
                 get_tender_id_organization_chain soup in
               let tender_type := extract_value soup "Tender Type" in
               Ret (Some (Details (mkrecord tender_id tender_value
                                     tender_organization_chain tender_type tender_dates)))
          else Ret (Some SkipDict)
      | Raise ValueError => Ret None
      | Raise e => Raise e
      end
  | None => Ret None
  end.

(** *** Reporter *)

Definition send_email (body : string) : M unit := emit (EvSend body).

(** [str(x)] inside an f-string for a value that may be [None]. *)
Definition fmt_str (x : option string) : string :=
  match x with Some s => s | None => "None" end.
Definition fmt_int (x : option Z) : string :=
  match x with Some n => PyStr.of_Z n | None => "None" end.

Definition fragment_head (tender_url tid : string) (r : tender_record) : string :=
  "<p><a href='" ++ tender_url ++ "'>Tender URL</a><br>"
  ++ "Tender ID: " ++ tid ++ "<br>"
  ++ "Tender Value in ₹: " ++ fmt_int (tender_value r) ++ "<br>"
  ++ "Tender Type: " ++ fmt_str (tender_type r) ++ "<br>"
  ++ "Organization Chain: " ++ fmt_str (tender_organization_chain r) ++ "<br>"
  ++ "<b>Critical Dates:</b><br>".

Definition date_line (date_label : string) (date_value : option string) : M unit :=
  match date_value with
  | Some (String c v) =>
      append_body (PyStr.title (PyStr.replace "_" " " date_label)
                   ++ ": " ++ String c v ++ "<br>")
  | _ => ret tt
  end.

Definition failure_line (tender_url : string) : string :=
  "<p>Failed to fetch tender details for <a href='" ++ tender_url ++ "'>"
  ++ tender_url ++ "</a></p>".

(** *** Orchestrator *)

Definition lift {A} (r : res A) : M A := fun w => (r, w).

(** A page that passes [if not html] is a non-empty string. *)
Definition truthy (html : option string) : option string :=
  match html with
  | Some (String c r) => Some (String c r)
  | _ => None
  end.

(** The body of [for tender_url in tender_links]; [count] is carried
    through the loop. *)
Definition tender_body (tender_url : string) (count : Z) : M Z :=
  detail_html <- fetch_page tender_url ;;
  match truthy detail_html with
  | None => ret count
  | Some detail_html =>
      tender_values <- lift (get_tender_value detail_html) ;;
      match tender_values with
      | None =>
          save_failed_html detail_html tender_url ;;;
          append_body (failure_line tender_url) ;;;
          ret count
      | Some SkipDict => ret count
      | Some (Details r) =>
          match tender_id r with
          | None => ret count
          | Some tid =>
              if String.eqb tid "SKIP" then ret count
              else if String.eqb tid "" then ret count
              else
                seen <- find_one tid ;;
                if seen then ret count
                else
                  insert_one tid ;;;
                  append_body (fragment_head tender_url tid r) ;;;
                  for_each (tender_dates r)
                    (fun kv _ => date_line (fst kv) (snd kv)) tt ;;;
                  append_body "</p><hr>" ;;;
                  ret (count + 1)
          end
      end
  end.

(** The body of [for dept in departments_to_search]. *)
Definition department_body (department_table : node) (dept : string) (_ : unit) : M unit :=
  let dept_link := extract_department_link department_table dept in
  append_body ("<h2>Department: " ++ dept ++ "</h2>") ;;;
  match dept_link with
  | None => append_body "<p>Not found or no link available.</p>"
  | Some dept_link =>
      org_page_html <- fetch_page dept_link ;;
      match truthy org_page_html with
      | None => append_body "<p>Failed to fetch organisation page.</p>"
      | Some org_page_html =>
          tender_links <- lift (get_tender_links_from_org_page org_page_html) ;;
          append_body ("<p>Found " ++ PyStr.of_Z (Z.of_nat (List.length tender_links))
                       ++ " total tenders.</p>") ;;;
          count <- for_each tender_links tender_body 0 ;;
          append_body ("Fount " ++ PyStr.of_Z count ++ " new tenders for " ++ dept ++ "<br>")
      end
  end.

(** [email_body = s]. *)
Definition set_body (s : string) : M unit :=
  fun w => (Ret tt, mkworld (history w) (db w) s).

Definition get_body : M string := fun w => (Ret (email_body w), w).

(** The [__main__] block, for a given value of [DEPARTMENTS]. *)
Definition main (DEPARTMENTS : string) : M unit :=
  set_body "<html><body>" ;;;
  main_page_html <- fetch_page MAIN_URL ;;
  match truthy main_page_html with
  | None => raise (SystemExit 1)
  | Some main_page_html =>
      match get_department_table main_page_html with
      | None => raise (SystemExit 1)
      | Some department_table =>
          for_each (departments_to_search DEPARTMENTS)
            (department_body department_table) tt ;;;
          append_body "</body></html>" ;;;
          body <- get_body ;;
          send_email body
      end
  end.

End Scraper.

(** ** A small portal for concrete runs *)

Module Demo.

Definition table_class (c : string) (rows : list node) : node :=
  Elem "table" [("class", c)] rows.

Definition caption (kids : list node) : node := Elem "td" [("class", "td_caption")] kids.

(** The directory page: the department listing is the third marked table. *)
Definition directory_html : string :=
  "<table class='list_table'></table><table class='list_table'></table>"
  ++ "<table class='list_table'><tr><td>S.No</td><td>Organisation Name</td></tr>"
  ++ "<tr><td>1</td><td>Public Works Department</td>"
  ++ "<td><a href='/nicgep/app?org=pwd'>2</a></td></tr></table>".

Definition directory_tree : node :=
  document
    [ table_class "list_table" [];
      table_class "list_table" [];
      table_class "list_table"
        [ tr [td [Text "S.No"]; td [Text "Organisation Name"]];
          tr [td [Text "1"]; td [Text "Public Works Department"];
              td [link "/nicgep/app?org=pwd" "2"]] ] ].

Definition org_url : string := BASE_URL ++ "/nicgep/app?org=pwd".

Definition org_row_html (n href : string) : string :=
  "<tr><td>" ++ n ++ "</td><td>01-Jan</td><td>31-Jan</td><td>01-Feb</td>"
  ++ "<td><a href='" ++ href ++ "'>Road work</a></td><td>PWD</td></tr>".

Definition org_row_tree (n href : string) : node :=
  tr [td [Text n]; td [Text "01-Jan"]; td [Text "31-Jan"]; td [Text "01-Feb"];
      td [link href "Road work"]; td [Text "PWD"]].

Definition org_html : string :=
  "<table class='list_table'><tr><td>S.No</td></tr>"
  ++ org_row_html "1" "/nicgep/app?tender=1"
  ++ org_row_html "2" "/nicgep/app?tender=2" ++ "</table>".

Definition org_tree : node :=
  document
    [ table_class "list_table"
        [ tr [td [Text "S.No"]];
          org_row_tree "1" "/nicgep/app?tender=1";
          org_row_tree "2" "/nicgep/app?tender=2" ] ].

(** An organisation page without any marked table. *)
Definition bare_org_html : string := "<p>No tenders</p>".
Definition bare_org_tree : node := document [Elem "p" [] [Text "No tenders"]].

(** A tender detail page with the given id and value cell. *)
Definition detail_html (tid value : string) : string :=
  "<table class='tablebg'><tr><td>Organisation Chain</td><td><b>PWD</b></td></tr>"
  ++ "<tr><td>Tender Reference Number</td><td><b>R</b></td></tr>"
  ++ "<tr><td>Tender ID</td><td><b>" ++ tid ++ "</b></td></tr></table>"
  ++ "<table><tr><td class='td_caption'>Tender Type</td><td>Open Tender</td></tr>"
  ++ "<tr><td class='td_caption'>Tender Value in ₹</td><td>" ++ value ++ "</td></tr>"
  ++ "<tr><td class='td_caption'><b>Published Date</b></td><td>01-Jan-2025</td></tr></table>".

Definition detail_tree (tid value : string) : node :=
  document
    [ table_class "tablebg"
        [ tr [td [Text "Organisation Chain"]; td [Elem "b" [] [Text "PWD"]]];
          tr [td [Text "Tender Reference Number"]; td [Elem "b" [] [Text "R"]]];
          tr [td [Text "Tender ID"]; td [Elem "b" [] [Text tid]]] ];
      Elem "table" []
        [ tr [caption [Text "Tender Type"]; td [Text "Open Tender"]];
          tr [caption [Text "Tender Value in ₹"]; td [Text value]];
          tr [caption [Elem "b" [] [Text "Published Date"]]; td [Text "01-Jan-2025"]] ] ].

(** A detail page whose summary table lacks the id row. *)
Definition anonymous_html : string :=
  "<table><tr><td>Tender Value in ₹</td><td>NA</td></tr></table>".
Definition anonymous_tree : node :=
  document [Elem "table" [] [tr [td [Text "Tender Value in ₹"]; td [Text "NA"]]]].

Definition tender1_url : string := BASE_URL ++ "/nicgep/app?tender=1".
Definition tender2_url : string := BASE_URL ++ "/nicgep/app?tender=2".

(** The digit [1] followed by 309 zeros: more than the largest binary64. *)
Definition huge : string :=
  String "1" (PyStr.join (repeat "0" 309)).

(** The value cells used by the examples. *)
Definition value_cells : list string :=
  [ "25,00,000"; "50,00,000"; "₹30,00,000"; "3000000"; "29,99,999"; "NA"; "na"; "";
    "abc"; "29,99,999.99"; "inf"; huge ].

(** Every page of the demo portal with its parse tree. *)
Definition pages : list (string * node) :=
  (directory_html, directory_tree)
  :: (org_html, org_tree)
  :: (bare_org_html, bare_org_tree)
  :: (anonymous_html, anonymous_tree)
  :: (expiry_marker, document [Text expiry_marker])
  :: (map (fun v => (detail_html "T1" v, detail_tree "T1" v)) value_cells
      ++ map (fun v => (detail_html "T2" v, detail_tree "T2" v)) value_cells)%list.

Fixpoint lookup {A} (k : string) (l : list (string * A)) : option A :=
  match l with
  | [] => None
  | (k', v) :: r => if String.eqb k k' then Some v else lookup k r
  end.

(** The parser restricted to the pages above. *)
Definition parser (html : string) : node :=
  match lookup html pages with
  | Some t => t
  | None => document [Text html]
  end.

(** A portal that serves fixed pages by URL, whatever was requested before. *)
Definition serve (site : list (string * reply)) (_ : list string) (url : string) : reply :=
  match lookup url site with
  | Some r => r
  | None => Response 404 "Not Found"
  end.

(** A portal that answers the successive requests from a script. *)
Definition scripted (script : list reply) (past : list string) (_ : string) : reply :=
  nth (List.length past) script NetworkError.

Definition clock (_ : list event) : Z := 1700000000.

Definition start (seen : list string) : world := mkworld [] seen "".

(** The end-to-end scenario: one department, two tenders, the first worth
    2,500,000 with id T1 and the second worth 5,000,000 with id T2. *)
Definition scenario : list (string * reply) :=
  [ (MAIN_URL, Response 200 directory_html);
    (org_url, Response 200 org_html);
    (tender1_url, Response 200 (detail_html "T1" "25,00,000"));
    (tender2_url, Response 200 (detail_html "T2" "50,00,000")) ].

(** The same portal, with an organisation page that has no marked table. *)
Definition bare_scenario : list (string * reply) :=
  [ (MAIN_URL, Response 200 directory_html);
    (org_url, Response 200 bare_org_html) ].

End Demo.

(** ** Notions used to state the properties *)

(** The character [c] occurs in [s]. *)
Fixpoint occurs (c : ascii) (s : string) : bool :=
  match s with
  | EmptyString => false
  | String d r => Ascii.eqb c d || occurs c r
  end.


(** Every character of [s] satisfies [P]. *)
Fixpoint all_chars (P : ascii -> bool) (s : string) : bool :=
  match s with
  | EmptyString => true
  | String c r => P c && all_chars P r
  end.


(** The lines that the loop over the dates of a record appends. *)
Fixpoint date_fragments (dates : list (string * option string)) : list string :=
  match dates with
  | [] => []
  | (date_label, Some (String c v)) :: rest =>
      (PyStr.title (PyStr.replace "_" " " date_label) ++ ": " ++ String c v ++ "<br>")
      :: date_fragments rest
  | _ :: rest => date_fragments rest
  end.

(** The fragments of one reported tender. *)
Definition report_fragments (tender_url tid : string) (r : tender_record) : list string :=
  (fragment_head tender_url tid r :: date_fragments (tender_dates r) ++ ["</p><hr>"])%list.

(** The world after a list of fragments was appended to the digest. *)
Definition appended (fragments : list string) (w : world) : world :=
  mkworld (history w ++ map EvAppend fragments)%list (db w)
          (email_body w ++ PyStr.join fragments).

(** The world after a list of GET requests. *)
Definition requested (urls : list string) (w : world) : world :=
  mkworld (history w ++ map EvGet urls)%list (db w) (email_body w).

(** Neither the digest, nor the saved pages, nor the seen log differ. *)
Definition untouched (w w' : world) : Prop :=
  email_body w' = email_body w
  /\ saved_of (history w') = saved_of (history w)
  /\ db w' = db w.

(** The discipline of the seen log over the events of a run that starts
    with the log [seen]: an insertion happens only between a seen-check of
    the same id that found nothing and the append of the fragment of a
    record with that id which passed the filter. *)
Inductive trace_ok : list string -> list event -> Prop :=
| trace_nil (seen : list string) : trace_ok seen []
| trace_other (seen : list string) (e : event) (evs : list event) :
    (forall i, e <> EvInsertOne i) ->
    trace_ok seen evs ->
    trace_ok seen (e :: evs)
| trace_report (seen : list string) (i url : string) (r : tender_record)
               (evs : list event) :
    ~ In i seen ->
    tender_id r = Some i ->
    i <> "" ->
    below_threshold (tender_value r) = true ->
    trace_ok (seen ++ [i])%list evs ->
    trace_ok seen (EvFindOne i false :: EvInsertOne i
                   :: EvAppend (fragment_head url i r) :: evs).

(** A computation that keeps the discipline of the seen log. *)
Definition disciplined {A} (m : M A) : Prop :=
  forall w, exists evs,
    history (snd (m w)) = (history w ++ evs)%list
    /\ db (snd (m w)) = (db w ++ inserted_of evs)%list
    /\ trace_ok (db w) evs.

(** The number of occurrences of the character [c] in [s]. *)
Fixpoint count_char (c : ascii) (s : string) : nat :=
  match s with
  | EmptyString => O
  | String d r => if Ascii.eqb c d then S (count_char c r) else count_char c r
  end.

(** A character that may stand in the name of a saved page. *)
Definition safe_char (c : ascii) : bool := PyStr.is_alnum c || Ascii.eqb c "_".

(** * Properties *)

(** ** Sanity checks of the primitives *)

Example strip_ex : PyStr.strip "  a b  " = "a b". Proof. reflexivity. Qed.
Example replace_ex : PyStr.replace "₹" "" (PyStr.replace "," "" "₹30,00,000") = "3000000".
Proof. reflexivity. Qed.
Example split_ex : PyStr.split_on ","%char "a, b,,c" = ["a"; " b"; ""; "c"]. Proof. reflexivity. Qed.
Example title_ex : PyStr.title (PyStr.replace "_" " " "bid_opening_date") = "Bid Opening Date".
Proof. reflexivity. Qed.
Example of_Z_ex : PyStr.of_Z 2500000 = "2500000" /\ PyStr.of_Z 0 = "0" /\ PyStr.of_Z (-7) = "-7".
Proof. repeat split. Qed.
Example sanitize_ex : PyStr.sanitize "https://x/a?b=1" = "https___x_a_b_1". Proof. reflexivity. Qed.
Example contains_ex : PyStr.contains "timed out" "Your session has timed out." = true.
Proof. reflexivity. Qed.
Example float_ex1 : PyFloat.of_string "2999999.99" = Some (PyFloat.Fin false 6442450922525164 (-31)).
Proof. vm_compute. reflexivity. Qed.
Example float_ex2 : PyFloat.of_string "0.1" = Some (PyFloat.Fin false 7205759403792794 (-56)).
Proof. vm_compute. reflexivity. Qed.
Example float_ex3 : PyFloat.of_string "1e309" = Some (PyFloat.Inf false).
Proof. vm_compute. reflexivity. Qed.
Example float_ex4 : PyFloat.of_string "1.7976931348623157e308" = Some (PyFloat.Fin false (2^53 - 1) 971).
Proof. vm_compute. reflexivity. Qed.
Example float_ex5 : PyFloat.of_string "5e-324" = Some (PyFloat.Fin false 1 (-1074)).
Proof. vm_compute. reflexivity. Qed.
Example float_ex6 : PyFloat.of_string "2999999.9999999999" = Some (PyFloat.Fin false (3000000 * 2^31) (-31)).
Proof. vm_compute. reflexivity. Qed.
Example float_ex7 : PyFloat.of_string "2.5e-324" = Some (PyFloat.Fin false 1 (-1074)).
Proof. vm_compute. reflexivity. Qed.
Example float_ex8 :
  map PyFloat.of_string ["1e"; "."; "1__0"; "_1"; "1_"; "0x10"; "1_e5"; "1e_5"; "1._5"; "--1"; "infinit"; "1,000"; "abc"; ""]
  = repeat None 14.
Proof. vm_compute. reflexivity. Qed.
Example float_ex9 :
  map PyFloat.of_string ["1."; ".5"; "+.5e+3"; "1e1_0"; " 12 "; "-Infinity"; "iNfInIty"; "NaN"]
  = [Some (PyFloat.Fin false (2^52) (-52)); Some (PyFloat.Fin false (2^52) (-53));
     Some (PyFloat.Fin false (500 * 2^44) (-44)); Some (PyFloat.Fin false (10^10 * 2^19) (-19));
     Some (PyFloat.Fin false (12 * 2^49) (-49)); Some (PyFloat.Inf true); Some (PyFloat.Inf false);
     Some PyFloat.NaN].
Proof. vm_compute. reflexivity. Qed.
Example int_ex : PyFloat.to_int (PyFloat.Fin true (27 * 2^48 / 10) (-48)) = Ret (-2).
Proof. vm_compute. reflexivity. Qed.
Example get_text_ex :
  get_text_strip (td [Text "  Public "; Elem "b" [] [Text " Works  "]; Text "  "]) = "PublicWorks".
Proof. reflexivity. Qed.
Example find_all_ex :
  List.length (find_all "td" (tr [td [Elem "table" [] [tr [td []]]]; td []])) = 3%nat.
Proof. reflexivity. Qed.
Example sibling_ex :
  option_map (find_next_sibling "td")
    (find_string "td" (PyStr.contains "Value") (document [tr [td [Text "Value"]; Text " "; td [Text "7"]]]))
  = Some (Some (td [Text "7"])).
Proof. reflexivity. Qed.

(** ** Tender filter and numeric normalization *)

Section FilterFacts.

Variable html_parser : string -> node.

Lemma get_tender_value_found (detail_html value_text : string) :
  tender_value_text (html_parser detail_html) = Some value_text ->
  get_tender_value html_parser detail_html =
  match convert_tender_value (clean_value_text value_text) with
  | Ret tender_value =>
      if below_threshold tender_value
      then Ret (Some (Details
             (mkrecord (fst (get_tender_id_organization_chain (html_parser detail_html)))
                       tender_value
                       (snd (get_tender_id_organization_chain (html_parser detail_html)))
                       (extract_value (html_parser detail_html) "Tender Type")
                       (get_tender_dates (html_parser detail_html)))))
      else Ret (Some SkipDict)
  | Raise ValueError => Ret None
  | Raise e => Raise e
  end.
Proof.
  intros H. unfold get_tender_value. rewrite H.
  destruct (convert_tender_value (clean_value_text value_text)) as [v|e]; [|reflexivity].
  destruct (below_threshold v); [|reflexivity].
  destruct (get_tender_id_organization_chain (html_parser detail_html)); reflexivity.
Qed.

(** A full record is only ever returned for a value that passed the filter. *)
Lemma details_below_threshold (detail_html : string) (r : tender_record) :
  get_tender_value html_parser detail_html = Ret (Some (Details r)) ->
  below_threshold (tender_value r) = true.
Proof.
  unfold get_tender_value.
  destruct (tender_value_text (html_parser detail_html)) as [t|]; [|discriminate].
  destruct (convert_tender_value (clean_value_text t)) as [v|e].
  - destruct (below_threshold v) eqn:B; [|discriminate].
    destruct (get_tender_id_organization_chain (html_parser detail_html)).
    intros H. injection H as <-. exact B.
  - destruct e; discriminate.
Qed.

End FilterFacts.

(** C4. For a tender value [v] that was parsed successfully (an integer or
    null), [get_tender_value] returns the full record (Keep) exactly when
    [v] is null or [v < 3000000], and the SKIP dictionary exactly when
    [v >= 3000000]; so 3000000 is Skip, 2999999 is Keep and null is Keep. *)
Theorem threshold_classification :
  forall (html_parser : string -> node) (detail_html value_text : string) (v : option Z),
    tender_value_text (html_parser detail_html) = Some value_text ->
    convert_tender_value (clean_value_text value_text) = Ret v ->
    ((exists r, get_tender_value html_parser detail_html = Ret (Some (Details r))
                /\ tender_value r = v)
     <-> (v = None \/ exists n, v = Some n /\ n < 3000000))
    /\ (get_tender_value html_parser detail_html = Ret (Some SkipDict)
        <-> exists n, v = Some n /\ 3000000 <= n)
    /\ (v = Some 3000000 -> get_tender_value html_parser detail_html = Ret (Some SkipDict))
    /\ (v = Some 2999999 \/ v = None ->
        exists r, get_tender_value html_parser detail_html = Ret (Some (Details r))
                  /\ tender_value r = v).
Proof.
  intros p html t v Ht Hv.
  rewrite (get_tender_value_found p html t Ht), Hv.
  assert (K : below_threshold v = true <-> (v = None \/ exists n, v = Some n /\ n < 3000000)).
  { destruct v as [n|]; simpl; unfold threshold.
    - rewrite Z.ltb_lt. split.
      + intros L. right. exists n. split; [reflexivity | exact L].
      + intros [E|[m [E L]]]; [discriminate | injection E as ->; exact L].
    - split; [intros _; left; reflexivity | reflexivity]. }
  assert (S : below_threshold v = false <-> exists n, v = Some n /\ 3000000 <= n).
  { destruct v as [n|]; simpl; unfold threshold.
    - rewrite Z.ltb_ge. split.
      + intros L. exists n. split; [reflexivity | exact L].
      + intros [m [E L]]. injection E as ->. exact L.
    - split; [discriminate | intros [m [E _]]; discriminate]. }
  destruct (below_threshold v) eqn:B.
  - repeat split.
    + intros _. apply K. reflexivity.
    + intros _. eexists. split; reflexivity.
    + discriminate.
    + intros E. apply S in E. discriminate.
    + intros E. subst v. vm_compute in B. discriminate.
    + intros _. eexists. split; reflexivity.
  - repeat split.
    + intros [r [E _]]. discriminate.
    + intros E. apply K in E. discriminate.
    + intros _. apply S. reflexivity.
    + intros [E|E]; subst v; vm_compute in B; discriminate.
Qed.

Lemma threshold_classification_witness :
  let html := Demo.detail_html "T1" "3000000" in
  tender_value_text (Demo.parser html) = Some "3000000"
  /\ convert_tender_value (clean_value_text "3000000") = Ret (Some 3000000)
  /\ get_tender_value Demo.parser html = Ret (Some SkipDict).
Proof.
  assert (H1 : tender_value_text (Demo.parser (Demo.detail_html "T1" "3000000")) = Some "3000000")
    by (vm_compute; reflexivity).
  assert (H2 : convert_tender_value (clean_value_text "3000000") = Ret (Some 3000000))
    by (vm_compute; reflexivity).
  split; [exact H1 | split; [exact H2 |]].
  apply (threshold_classification Demo.parser _ _ _ H1 H2). reflexivity.
Defined.

(** ** Facts about the string primitives *)

Lemma contains_char (c : ascii) (s : string) :
  PyStr.contains (String c EmptyString) s = occurs c s.
Proof.
  induction s as [|d r IH]; [reflexivity|].
  simpl. destruct (Ascii.eqb c d); simpl; [reflexivity | exact IH].
Qed.

Lemma occurs_append (c : ascii) (a b : string) :
  occurs c (a ++ b) = occurs c a || occurs c b.
Proof.
  induction a as [|d a IH]; simpl; [reflexivity|].
  rewrite IH. apply orb_assoc.
Qed.



Lemma lstrip_no_new (c : ascii) (s : string) :
  occurs c s = false -> occurs c (PyStr.lstrip s) = false.
Proof.
  induction s as [|d r IH]; intros H; [reflexivity|].
  simpl. destruct (PyStr.is_space d); [|exact H].
  simpl in H. apply orb_false_elim in H. apply IH, H.
Qed.

Lemma rstrip_no_new (c : ascii) (s : string) :
  occurs c s = false -> occurs c (PyStr.rstrip s) = false.
Proof.
  induction s as [|d r IH]; intros H; [reflexivity|].
  simpl in H. apply orb_false_elim in H. destruct H as [H1 H2].
  specialize (IH H2). simpl.
  destruct (PyStr.rstrip r) as [|e t].
  - destruct (PyStr.is_space d); simpl; [reflexivity|]. rewrite H1. reflexivity.
  - change (occurs c (String d (String e t))) with (Ascii.eqb c d || occurs c (String e t)).
    rewrite H1, IH. reflexivity.
Qed.




(** ** Decimal numerals and [float] *)











Lemma lstrip_id (c : ascii) (r : string) :
  PyStr.is_space c = false -> PyStr.lstrip (String c r) = String c r.
Proof. intros H. simpl. rewrite H. reflexivity. Qed.








(** ** Department resolution *)

Section DepartmentFacts.

Variable department_table : node.
Variable dept_name : string.



Lemma cell_link_some (cell : node) (url : string) :
  cell_link cell = Some url ->
  exists a_tag href, find "a" cell = Some a_tag /\ attr "href" a_tag = Some href
                     /\ url = BASE_URL ++ PyStr.strip href.
Proof.
  unfold cell_link. destruct (find "a" cell) as [a|]; [|discriminate].
  destruct (attr "href" a) as [h|] eqn:A; [|discriminate].
  intros H. injection H as <-. exists a, h.
  split; [reflexivity|]. split; [exact A | reflexivity].
Qed.

End DepartmentFacts.




(** ** Extractors that raise *)

(** An organisation page without a marked table makes the extractor raise. *)
Lemma tender_links_index_error (html_parser : string -> node) (org_html : string) :
  find_all_class "table" "list_table" (html_parser org_html) = [] ->
  get_tender_links_from_org_page html_parser org_html = Raise IndexError.
Proof.
  intros H. unfold get_tender_links_from_org_page. rewrite H. reflexivity.
Qed.

(** C3, on the failing input. The organisation page [<p>No tenders</p>]
    has no table of class [list_table]: [get_tender_links_from_org_page]
    raises [IndexError] where [get_department_table] returns [None] for
    the same page, and the run of [__main__] over the portal that serves
    this page ends with that exception, after the department heading and
    before any digest is sent. *)
Theorem org_page_without_table_aborts :
  find_all_class "table" "list_table" (Demo.parser Demo.bare_org_html) = []
  /\ get_department_table Demo.parser Demo.bare_org_html = None
  /\ get_tender_links_from_org_page Demo.parser Demo.bare_org_html = Raise IndexError
  /\ main (Demo.serve Demo.bare_scenario) Demo.parser Demo.clock
          "Public Works Department" (Demo.start [])
     = (Raise IndexError,
        mkworld [EvGet MAIN_URL;
                 EvAppend "<h2>Department: Public Works Department</h2>";
                 EvGet Demo.org_url]
                []
                "<html><body><h2>Department: Public Works Department</h2>").
Proof.
  repeat split; vm_compute; reflexivity.
Qed.

(** ** Fetcher *)

Lemma requests_of_app (h1 h2 : list event) :
  requests_of (h1 ++ h2) = (requests_of h1 ++ requests_of h2)%list.
Proof.
  induction h1 as [|e h1 IH]; simpl; [reflexivity|].
  destruct e; simpl; rewrite IH; reflexivity.
Qed.

Lemma session_get_eq (portal : list string -> string -> reply) (url : string) (w : world) :
  session_get portal url w =
  (match portal (requests_of (history w)) url with
   | NetworkError => Raise RequestException
   | Response st body => Ret (st, body)
   end,
   mkworld (history w ++ [EvGet url]) (db w) (email_body w)).
Proof.
  unfold session_get, log. destruct (portal _ url); reflexivity.
Qed.

(** C2, as stated, fails: when the page fetched after the restart carries
    the expiry marker again, [fetch_page] returns that page. *)
Lemma second_expiry_returns_page :
  let expired := Response 200 expiry_marker in
  PyStr.contains expiry_marker expiry_marker = true
  /\ fetch_page (Demo.scripted [expired; Response 200 "restarted"; expired]) "u" (Demo.start [])
     = (Ret (Some expiry_marker),
        mkworld [EvGet "u"; EvGet restart_url; EvGet "u"] [] "")
  /\ fst (fetch_page (Demo.scripted [expired; Response 200 "restarted"; expired]) "u"
            (Demo.start [])) <> Ret None.
Proof.
  repeat split; try (vm_compute; reflexivity). vm_compute. discriminate.
Qed.

(** C2, amended. When the first response has no error status and its body
    contains the expiry marker, [fetch_page] issues one restart request;
    if that request fails in transit the fetch is Failed after these two
    requests; otherwise it issues the original GET once more and nothing
    after it, and the fetch is Failed when the retried GET fails in
    transit or has an error status, and otherwise returns the body of the
    retried response, whether or not that body carries the marker again. *)
Theorem session_recovery :
  forall (portal : list string -> string -> reply) (url : string) (w : world)
         (st : Z) (body : string),
    portal (requests_of (history w)) url = Response st body ->
    error_status st = false ->
    PyStr.contains expiry_marker body = true ->
    let past := requests_of (history w) in
    fetch_page portal url w =
    match portal (past ++ [url])%list restart_url with
    | NetworkError =>
        (Ret None,
         mkworld (history w ++ [EvGet url; EvGet restart_url]) (db w) (email_body w))
    | Response _ _ =>
        (match portal (past ++ [url; restart_url])%list url with
         | NetworkError => Ret None
         | Response st2 body2 => if error_status st2 then Ret None else Ret (Some body2)
         end,
         mkworld (history w ++ [EvGet url; EvGet restart_url; EvGet url])
                 (db w) (email_body w))
    end.
Proof.
  intros portal url w st body H1 Hst Hm past.
  unfold fetch_page, except_request, bind.
  rewrite session_get_eq, H1.
  unfold raise_for_status at 1. cbn [fst snd]. rewrite Hst. unfold ret at 1. rewrite Hm.
  rewrite session_get_eq. cbn [history db email_body].
  rewrite requests_of_app. cbn [requests_of]. fold past.
  destruct (portal (past ++ [url])%list restart_url) as [|st1 body1].
  - unfold ret. rewrite <- app_assoc. reflexivity.
  - rewrite session_get_eq. cbn [history db email_body].
    rewrite !requests_of_app. cbn [requests_of]. fold past.
    rewrite <- !app_assoc. cbn [app].
    destruct (portal (past ++ [url; restart_url])%list url) as [|st2 body2].
    + reflexivity.
    + unfold raise_for_status. cbn [fst snd].
      destruct (error_status st2); reflexivity.
Qed.

Lemma session_recovery_witness :
  let portal := Demo.scripted [Response 200 expiry_marker; Response 200 "restarted";
                               Response 200 "<p>page</p>"] in
  portal (requests_of (history (Demo.start []))) "u" = Response 200 expiry_marker
  /\ error_status 200 = false
  /\ PyStr.contains expiry_marker expiry_marker = true
  /\ fetch_page portal "u" (Demo.start [])
     = (Ret (Some "<p>page</p>"),
        mkworld [EvGet "u"; EvGet restart_url; EvGet "u"] [] "").
Proof.
  split; [reflexivity|]. split; [reflexivity|]. split; [reflexivity|].
  exact (session_recovery
           (Demo.scripted [Response 200 expiry_marker; Response 200 "restarted";
                           Response 200 "<p>page</p>"])
           "u" (Demo.start []) 200 expiry_marker eq_refl eq_refl eq_refl).
Defined.

(** ** Per-tender outcomes *)

Lemma saved_of_app (h1 h2 : list event) :
  saved_of (h1 ++ h2) = (saved_of h1 ++ saved_of h2)%list.
Proof.
  induction h1 as [|e h1 IH]; simpl; [reflexivity|].
  destruct e; simpl; rewrite IH; reflexivity.
Qed.

Lemma inserted_of_app (h1 h2 : list event) :
  inserted_of (h1 ++ h2) = (inserted_of h1 ++ inserted_of h2)%list.
Proof.
  induction h1 as [|e h1 IH]; simpl; [reflexivity|].
  destruct e; simpl; rewrite IH; reflexivity.
Qed.

Lemma saved_of_gets (urls : list string) : saved_of (map EvGet urls) = [].
Proof. induction urls; simpl; auto. Qed.

Lemma inserted_of_gets (urls : list string) : inserted_of (map EvGet urls) = [].
Proof. induction urls; simpl; auto. Qed.

Lemma inserted_of_appends (l : list string) : inserted_of (map EvAppend l) = [].
Proof. induction l; simpl; auto. Qed.

Lemma saved_of_appends (l : list string) : saved_of (map EvAppend l) = [].
Proof. induction l; simpl; auto. Qed.

(** [fetch_page] never raises, and only issues GET requests. *)
Lemma fetch_page_effect (portal : list string -> string -> reply) (url : string) (w : world) :
  exists fetched urls, fetch_page portal url w = (Ret fetched, requested urls w).
Proof.
  unfold fetch_page, except_request, bind.
  rewrite session_get_eq.
  destruct (portal (requests_of (history w)) url) as [|st body].
  { exists None, [url]. reflexivity. }
  unfold raise_for_status at 1. cbn [fst snd].
  destruct (error_status st).
  { exists None, [url]. reflexivity. }
  unfold ret at 1.
  destruct (PyStr.contains expiry_marker body).
  - rewrite session_get_eq. cbn [history db email_body].
    destruct (portal _ restart_url) as [|st1 body1].
    { exists None, [url; restart_url]. unfold requested, ret. cbn [map].
      rewrite <- app_assoc. reflexivity. }
    rewrite session_get_eq. cbn [history db email_body].
    destruct (portal _ url) as [|st2 body2].
    { exists None, [url; restart_url; url]. unfold requested, ret. cbn [map].
      rewrite <- !app_assoc. reflexivity. }
    unfold raise_for_status. cbn [fst snd].
    destruct (error_status st2).
    + exists None, [url; restart_url; url]. unfold requested, raise, ret. cbn [map].
      rewrite <- !app_assoc. reflexivity.
    + exists (Some body2), [url; restart_url; url]. unfold requested, ret. cbn [map].
      rewrite <- !app_assoc. reflexivity.
  - exists (Some body), [url]. reflexivity.
Qed.

Lemma requested_untouched (urls : list string) (w : world) : untouched w (requested urls w).
Proof.
  unfold untouched, requested. simpl.
  rewrite saved_of_app, saved_of_gets, app_nil_r. auto.
Qed.

Lemma truthy_some (fetched : option string) (html : string) :
  truthy fetched = Some html -> fetched = Some html /\ html <> "".
Proof.
  destruct fetched as [[|c r]|]; simpl; try discriminate.
  intros H. injection H as <-. split; [reflexivity | discriminate].
Qed.

Section TenderBody.

Variable portal : list string -> string -> reply.
Variable html_parser : string -> node.
Variable time_time : list event -> Z.
Variable tender_url : string.
Variable count : Z.
Variable w wf : world.
Variable fetched : option string.
Hypothesis fetch : fetch_page portal tender_url w = (Ret fetched, wf).

Let step := tender_body portal html_parser time_time tender_url count w.

Lemma step_fetch_failed : truthy fetched = None -> step = (Ret count, wf).
Proof.
  intros T. unfold step, tender_body, bind. rewrite fetch, T. reflexivity.
Qed.

Section Parsed.

Variable detail_html : string.
Hypothesis page : truthy fetched = Some detail_html.

Lemma step_parsed :
  step =
  (tender_values <- lift (get_tender_value html_parser detail_html) ;;
   match tender_values with
   | None =>
       save_failed_html time_time detail_html tender_url ;;;
       append_body (failure_line tender_url) ;;;
       ret count
   | Some SkipDict => ret count
   | Some (Details r) =>
       match tender_id r with
       | None => ret count
       | Some tid =>
           if String.eqb tid "SKIP" then ret count
           else if String.eqb tid "" then ret count
           else
             seen <- find_one tid ;;
             if seen then ret count
             else
               insert_one tid ;;;
               append_body (fragment_head tender_url tid r) ;;;
               for_each (tender_dates r)
                 (fun kv _ => date_line (fst kv) (snd kv)) tt ;;;
               append_body "</p><hr>" ;;;
               ret (count + 1)
       end
   end) wf.
Proof.
  unfold step, tender_body. unfold bind at 1. rewrite fetch, page. reflexivity.
Qed.

Lemma step_unparsable :
  get_tender_value html_parser detail_html = Ret None ->
  step = (Ret count,
          mkworld (history wf ++ [EvSave (failed_filename tender_url (time_time (history wf)))
                                         detail_html;
                                  EvAppend (failure_line tender_url)])
                  (db wf) (email_body wf ++ failure_line tender_url)).
Proof.
  intros G. rewrite step_parsed. unfold bind, lift. rewrite G.
  unfold save_failed_html, emit, log, append_body, ret. simpl.
  rewrite <- app_assoc. reflexivity.
Qed.

Lemma step_skip :
  get_tender_value html_parser detail_html = Ret (Some SkipDict) ->
  step = (Ret count, wf).
Proof.
  intros G. rewrite step_parsed. unfold bind, lift. rewrite G. reflexivity.
Qed.

Lemma step_missing_id (r : tender_record) :
  get_tender_value html_parser detail_html = Ret (Some (Details r)) ->
  tender_id r = None \/ tender_id r = Some "" \/ tender_id r = Some "SKIP" ->
  step = (Ret count, wf).
Proof.
  intros G H. rewrite step_parsed. unfold bind, lift. rewrite G.
  destruct H as [H|[H|H]]; rewrite H; reflexivity.
Qed.

Lemma step_identified (r : tender_record) (tid : string) :
  get_tender_value html_parser detail_html = Ret (Some (Details r)) ->
  tender_id r = Some tid -> tid <> "" -> tid <> "SKIP" ->
  step =
  (seen <- find_one tid ;;
   if seen then ret count
   else
     insert_one tid ;;;
     append_body (fragment_head tender_url tid r) ;;;
     for_each (tender_dates r) (fun kv _ => date_line (fst kv) (snd kv)) tt ;;;
     append_body "</p><hr>" ;;;
     ret (count + 1)) wf.
Proof.
  intros G I N1 N2. rewrite step_parsed. unfold bind at 1. unfold lift. rewrite G, I.
  apply String.eqb_neq in N1, N2. rewrite N1, N2. reflexivity.
Qed.

Lemma step_seen (r : tender_record) (tid : string) :
  get_tender_value html_parser detail_html = Ret (Some (Details r)) ->
  tender_id r = Some tid -> tid <> "" -> tid <> "SKIP" ->
  In tid (db wf) ->
  step = (Ret count, log (EvFindOne tid true) wf).
Proof.
  intros G I N1 N2 S. rewrite (step_identified r tid G I N1 N2).
  unfold bind, find_one.
  assert (E : existsb (String.eqb tid) (db wf) = true).
  { apply existsb_exists. exists tid. split; [exact S | apply String.eqb_refl]. }
  rewrite E. reflexivity.
Qed.

End Parsed.

End TenderBody.

Lemma join_app (a b : list string) :
  PyStr.join (a ++ b) = PyStr.join a ++ PyStr.join b.
Proof.
  induction a as [|x a IH]; simpl; [reflexivity|].
  rewrite IH. unfold PyStr.join. simpl.
  induction x as [|c x IHx]; simpl; [reflexivity | f_equal; exact IHx].
Qed.

Lemma string_app_assoc (a b c : string) : (a ++ b) ++ c = a ++ (b ++ c).
Proof. induction a as [|x a IH]; simpl; [reflexivity | f_equal; exact IH]. Qed.

Lemma string_app_nil_r (a : string) : a ++ "" = a.
Proof. induction a as [|x a IH]; simpl; [reflexivity | f_equal; exact IH]. Qed.

Lemma appended_nil (w : world) : appended [] w = w.
Proof.
  unfold appended. simpl. rewrite app_nil_r, string_app_nil_r. destruct w; reflexivity.
Qed.

Lemma appended_cons (s : string) (l : list string) (w : world) :
  appended (s :: l) w = appended l (appended [s] w).
Proof.
  unfold appended. simpl. rewrite <- app_assoc, string_app_nil_r, string_app_assoc.
  reflexivity.
Qed.

Lemma appended_app (a b : list string) (w : world) :
  appended (a ++ b) w = appended b (appended a w).
Proof.
  revert w. induction a as [|s a IH]; intros w; simpl.
  - rewrite appended_nil. reflexivity.
  - rewrite appended_cons, IH, <- appended_cons. reflexivity.
Qed.

Lemma append_body_eq (s : string) (w : world) :
  append_body s w = (Ret tt, appended [s] w).
Proof.
  unfold append_body, appended. simpl. rewrite string_app_nil_r. reflexivity.
Qed.

(** The loop over the dates appends one line per date that has a value. *)
Lemma date_loop (dates : list (string * option string)) (w : world) :
  for_each dates (fun kv _ => date_line (fst kv) (snd kv)) tt w
  = (Ret tt, appended (date_fragments dates) w).
Proof.
  revert w. induction dates as [|[k v] rest IH]; intros w.
  - simpl. rewrite appended_nil. reflexivity.
  - cbn [for_each]. unfold bind. cbn [fst snd].
    destruct v as [[|c v]|]; cbn [date_line date_fragments].
    + unfold ret at 1. apply IH.
    + rewrite append_body_eq, IH, <- appended_cons. reflexivity.
    + unfold ret at 1. apply IH.
Qed.

(** An identified record that the log has not seen is marked and reported. *)
Lemma step_reported
      (portal : list string -> string -> reply) (html_parser : string -> node)
      (time_time : list event -> Z) (tender_url : string) (count : Z) (w wf : world)
      (fetched : option string) (detail_html : string) (r : tender_record) (tid : string) :
  fetch_page portal tender_url w = (Ret fetched, wf) ->
  truthy fetched = Some detail_html ->
  get_tender_value html_parser detail_html = Ret (Some (Details r)) ->
  tender_id r = Some tid -> tid <> "" -> tid <> "SKIP" ->
  ~ In tid (db wf) ->
  tender_body portal html_parser time_time tender_url count w
  = (Ret (count + 1),
     appended (report_fragments tender_url tid r)
       (mkworld (history wf ++ [EvFindOne tid false; EvInsertOne tid])
                (db wf ++ [tid]) (email_body wf))).
Proof.
  intros F T G I N1 N2 S.
  rewrite (step_identified portal html_parser time_time tender_url count w wf fetched F
             detail_html T r tid G I N1 N2).
  unfold bind at 1. unfold find_one.
  assert (E : existsb (String.eqb tid) (db wf) = false).
  { destruct (existsb (String.eqb tid) (db wf)) eqn:X; [|reflexivity].
    apply existsb_exists in X. destruct X as [x [Hx Q]].
    apply String.eqb_eq in Q. subst x. contradiction. }
  rewrite E. unfold bind, insert_one, log. cbn [history db email_body].
  rewrite append_body_eq, date_loop, append_body_eq. unfold ret.
  unfold report_fragments.
  rewrite (appended_cons (fragment_head tender_url tid r)
             (date_fragments (tender_dates r) ++ ["</p><hr>"])).
  rewrite appended_app, <- app_assoc. reflexivity.
Qed.

Lemma log_find_untouched (w : world) (i : string) (b : bool) :
  untouched w (log (EvFindOne i b) w).
Proof.
  unfold untouched, log. simpl. rewrite saved_of_app. simpl. rewrite app_nil_r. auto.
Qed.

Lemma untouched_trans (a b c : world) : untouched a b -> untouched b c -> untouched a c.
Proof.
  unfold untouched. intros [A1 [A2 A3]] [B1 [B2 B3]].
  rewrite B1, B2, B3. auto.
Qed.

(** C7, as stated, fails: when the detail page of a tender cannot be
    fetched, the digest gets no failure line and no page is saved. *)
Lemma fetch_failure_leaves_no_line :
  let step := tender_body (Demo.serve []) Demo.parser Demo.clock Demo.tender1_url 0
                          (Demo.start []) in
  fetch_page (Demo.serve []) Demo.tender1_url (Demo.start [])
  = (Ret None, mkworld [EvGet Demo.tender1_url] [] "")
  /\ step = (Ret 0, mkworld [EvGet Demo.tender1_url] [] "")
  /\ PyStr.contains (failure_line Demo.tender1_url) (email_body (snd step)) = false
  /\ saved_of (history (snd step)) = [].
Proof.
  repeat split; vm_compute; reflexivity.
Qed.

(** C7, amended. Each outcome of one tender ends the work on that tender
    and lets the loop go on with the counter as it was.  A failed fetch
    (no page, or an empty one), a Skip, a record without a usable
    tender_id and an id already in the log leave the digest, the saved
    pages and the log as they were.  An Unparsable page alone adds the
    failure line to the digest and is saved under a name made of its URL
    and the time, the log staying as it was. *)
Theorem tender_outcomes :
  forall (portal : list string -> string -> reply) (html_parser : string -> node)
         (time_time : list event -> Z) (tender_url : string) (count : Z) (w : world),
    let step := tender_body portal html_parser time_time tender_url count w in
    exists fetched wf,
      fetch_page portal tender_url w = (Ret fetched, wf)
      /\ untouched w wf
      /\ (truthy fetched = None -> fst step = Ret count /\ untouched w (snd step))
      /\ (forall detail_html,
            truthy fetched = Some detail_html ->
            (get_tender_value html_parser detail_html = Ret None ->
             fst step = Ret count
             /\ email_body (snd step) = email_body w ++ failure_line tender_url
             /\ saved_of (history (snd step))
                = (saved_of (history w)
                   ++ [(failed_filename tender_url (time_time (history wf)), detail_html)])%list
             /\ db (snd step) = db w)
            /\ (get_tender_value html_parser detail_html = Ret (Some SkipDict) ->
                fst step = Ret count /\ untouched w (snd step))
            /\ (forall r,
                  get_tender_value html_parser detail_html = Ret (Some (Details r)) ->
                  (tender_id r = None \/ tender_id r = Some "" ->
                   fst step = Ret count /\ untouched w (snd step)
                   /\ inserted_of (history (snd step)) = inserted_of (history w))
                  /\ (forall tid, tender_id r = Some tid -> In tid (db w) ->
                                  fst step = Ret count /\ untouched w (snd step)))).
Proof.
  intros portal p clock url count w step.
  destruct (fetch_page_effect portal url w) as [fetched [urls F]].
  exists fetched, (requested urls w).
  pose proof (requested_untouched urls w) as U.
  split; [exact F|]. split; [exact U|]. split.
  { intros T. unfold step.
    rewrite (step_fetch_failed portal p clock url count w _ fetched F T). auto. }
  intros html T. split; [|split].
  - intros G. unfold step.
    rewrite (step_unparsable portal p clock url count w _ fetched F html T G).
    destruct U as [U1 [U2 U3]]. cbn [fst snd email_body history db].
    rewrite saved_of_app, U1, U2, U3. auto.
  - intros G. unfold step.
    rewrite (step_skip portal p clock url count w _ fetched F html T G). auto.
  - intros r G. split.
    + intros H. unfold step.
      rewrite (step_missing_id portal p clock url count w _ fetched F html T r G);
        [|tauto].
      cbn [fst snd]. repeat split; try apply U.
      unfold requested. cbn [history].
      rewrite inserted_of_app, inserted_of_gets, app_nil_r. reflexivity.
    + intros tid I S. unfold step.
      destruct (String.eqb_spec tid "") as [->|N1];
        [|destruct (String.eqb_spec tid "SKIP") as [->|N2]].
      * rewrite (step_missing_id portal p clock url count w _ fetched F html T r G);
          [auto | tauto].
      * rewrite (step_missing_id portal p clock url count w _ fetched F html T r G);
          [auto | tauto].
      * rewrite (step_seen portal p clock url count w _ fetched F html T r tid G I N1 N2).
        -- cbn [fst snd]. split; [reflexivity|].
           eapply untouched_trans; [exact U | apply log_find_untouched].
        -- destruct U as [_ [_ U3]]. rewrite U3. exact S.
Qed.

Lemma tender_outcomes_witness :
  let url := Demo.tender1_url in
  let html := Demo.detail_html "T1" "abc" in
  let portal := Demo.serve [(url, Response 200 html)] in
  let step := tender_body portal Demo.parser Demo.clock url 0 (Demo.start ["T9"]) in
  exists fetched wf,
    fetch_page portal url (Demo.start ["T9"]) = (Ret fetched, wf)
    /\ truthy fetched = Some html
    /\ get_tender_value Demo.parser html = Ret None
    /\ fst step = Ret 0
    /\ email_body (snd step) = failure_line url
    /\ saved_of (history (snd step)) = [(failed_filename url (Demo.clock (history wf)), html)]
    /\ db (snd step) = ["T9"].
Proof.
  intros url html portal step.
  destruct (tender_outcomes portal Demo.parser Demo.clock url 0 (Demo.start ["T9"]))
    as [fetched [wf [F [U [_ P]]]]].
  exists fetched, wf.
  assert (E : fetched = Some html).
  { assert (X : fetch_page portal url (Demo.start ["T9"])
                = (Ret (Some html), mkworld [EvGet url] ["T9"] ""))
      by (vm_compute; reflexivity).
    rewrite X in F. injection F as F1 F2. symmetry. exact F1. }
  assert (T : truthy fetched = Some html) by (rewrite E; reflexivity).
  assert (G : get_tender_value Demo.parser html = Ret None) by (vm_compute; reflexivity).
  split; [exact F|]. split; [exact T|]. split; [exact G|].
  exact (proj1 (P html T) G).
Defined.

(** ** Idempotence across runs *)



(** ** The discipline of the seen log *)

Lemma trace_ok_app (seen : list string) (e1 e2 : list event) :
  trace_ok seen e1 ->
  trace_ok (seen ++ inserted_of e1) e2 ->
  trace_ok seen (e1 ++ e2).
Proof.
  intros H. revert e2. induction H as [seen|seen e evs N H IH|seen i url r evs F I N B H IH];
    intros e2 H2.
  - simpl in H2. rewrite app_nil_r in H2. exact H2.
  - simpl. apply trace_other; [exact N|]. apply IH.
    destruct e as [u0|i0 b0|i0|s0|f0 h0|b0]; simpl in H2; try exact H2.
    exfalso. exact (N i0 eq_refl).
  - simpl. apply trace_report; try assumption. apply IH.
    simpl in H2. rewrite <- app_assoc. exact H2.
Qed.

Lemma trace_ok_quiet (seen : list string) (evs : list event) :
  (forall e, In e evs -> forall i, e <> EvInsertOne i) -> trace_ok seen evs.
Proof.
  induction evs as [|e evs IH]; intros H; [apply trace_nil|].
  apply trace_other; [apply H; left; reflexivity|].
  apply IH. intros x Hx. apply H. right. exact Hx.
Qed.

Lemma inserted_of_quiet (evs : list event) :
  (forall e, In e evs -> forall i, e <> EvInsertOne i) -> inserted_of evs = [].
Proof.
  induction evs as [|e evs IH]; intros H; [reflexivity|].
  destruct e as [u0|i0 b0|i0|s0|f0 h0|b0]; simpl;
    try (apply IH; intros x Hx; apply H; right; exact Hx).
  exfalso. exact (H _ (or_introl eq_refl) i0 eq_refl).
Qed.

(** The ids inserted along a disciplined trace are new and pairwise distinct. *)
Lemma trace_ok_fresh (seen : list string) (evs : list event) :
  trace_ok seen evs ->
  NoDup (inserted_of evs) /\ forall i, In i (inserted_of evs) -> ~ In i seen.
Proof.
  intros H. induction H as [seen|seen e evs N H [IH1 IH2]|seen i url r evs F I N B H [IH1 IH2]].
  - split; [constructor | intros i []].
  - destruct e as [u0|i0 b0|i0|s0|f0 h0|b0]; simpl; try (split; assumption).
    exfalso. exact (N i0 eq_refl).
  - simpl. split.
    + constructor; [|exact IH1]. intros X. apply (IH2 i X).
      apply in_or_app. right. left. reflexivity.
    + intros j [<-|X]; [exact F|]. intros Y. apply (IH2 j X).
      apply in_or_app. left. exact Y.
Qed.

(** Around every insertion of a disciplined trace stand the seen-check
    that found nothing and the fragment of a record that passed the filter. *)
Lemma trace_ok_context (seen : list string) (evs : list event) :
  trace_ok seen evs ->
  forall pre i post,
    evs = (pre ++ EvInsertOne i :: post)%list ->
    exists pre' url r post',
      pre = (pre' ++ [EvFindOne i false])%list
      /\ post = EvAppend (fragment_head url i r) :: post'
      /\ tender_id r = Some i /\ i <> ""
      /\ below_threshold (tender_value r) = true.
Proof.
  intros H. induction H as [seen|seen e evs N H IH|seen j url r evs F I N B H IH];
    intros pre i post E.
  - destruct pre; discriminate E.
  - destruct pre as [|x pre]; simpl in E.
    + injection E as E _. exfalso. exact (N i E).
    + injection E as <- E. destruct (IH pre i post E) as [pre' [u [r [post' [P R]]]]].
      exists (e :: pre'), u, r, post'. rewrite P. auto.
  - destruct pre as [|x1 pre]; simpl in E; [discriminate E|].
    injection E as <- E.
    destruct pre as [|x2 pre]; simpl in E.
    + injection E as <- <-. exists [], url, r, evs. auto.
    + injection E as <- E.
      destruct pre as [|x3 pre]; simpl in E; [discriminate E|].
      injection E as <- E.
      destruct (IH pre i post E) as [pre' [u [r' [post' [P R]]]]].
      exists (EvFindOne j false :: EvInsertOne j :: EvAppend (fragment_head url j r) :: pre'),
        u, r', post'.
      rewrite P. auto.
Qed.

(** *** The rules of the discipline *)

Lemma disciplined_quiet {A} (m : M A) :
  (forall w, exists evs,
      history (snd (m w)) = (history w ++ evs)%list
      /\ db (snd (m w)) = db w
      /\ forall e, In e evs -> forall i, e <> EvInsertOne i) ->
  disciplined m.
Proof.
  intros H w. destruct (H w) as [evs [E1 [E2 Q]]]. exists evs.
  split; [exact E1|]. split.
  - rewrite E2, (inserted_of_quiet evs Q), app_nil_r. reflexivity.
  - apply trace_ok_quiet, Q.
Qed.

Lemma disciplined_ret {A} (a : A) : disciplined (ret a).
Proof.
  apply disciplined_quiet. intros w. exists []. simpl.
  rewrite app_nil_r. repeat split. intros e [].
Qed.

Lemma disciplined_raise {A} (e : exn) : disciplined (@raise A e).
Proof.
  apply disciplined_quiet. intros w. exists []. simpl.
  rewrite app_nil_r. repeat split. intros x [].
Qed.

Lemma disciplined_lift {A} (r : res A) : disciplined (lift r).
Proof.
  apply disciplined_quiet. intros w. exists []. simpl.
  rewrite app_nil_r. repeat split. intros x [].
Qed.

Lemma disciplined_bind {A B} (m : M A) (k : A -> M B) :
  disciplined m -> (forall a, disciplined (k a)) -> disciplined (bind m k).
Proof.
  intros Hm Hk w. unfold bind.
  destruct (Hm w) as [e1 [H1 [D1 T1]]].
  destruct (m w) as [[a|x] w1]; simpl in H1, D1.
  - destruct (Hk a w1) as [e2 [H2 [D2 T2]]].
    exists (e1 ++ e2)%list. rewrite H2, D2, H1, D1, inserted_of_app, !app_assoc.
    repeat split. apply trace_ok_app; [exact T1|]. rewrite <- D1. exact T2.
  - exists e1. simpl. auto.
Qed.

Lemma disciplined_for_each {A S} (l : list A) (body : A -> S -> M S) :
  (forall x acc, disciplined (body x acc)) ->
  forall acc, disciplined (for_each l body acc).
Proof.
  intros H. induction l as [|x l IH]; intros acc; simpl.
  - apply disciplined_ret.
  - apply disciplined_bind; [apply H | exact IH].
Qed.

Lemma disciplined_event {A} (m : M A) (e : event) :
  (forall i, e <> EvInsertOne i) ->
  (forall w, snd (m w) = mkworld (history w ++ [e]) (db w) (email_body (snd (m w)))) ->
  disciplined m.
Proof.
  intros N H. apply disciplined_quiet. intros w. exists [e]. rewrite (H w). simpl.
  repeat split. intros x [<-|[]]. exact N.
Qed.

Lemma disciplined_append_body (s : string) : disciplined (append_body s).
Proof.
  apply (disciplined_event _ (EvAppend s)); [discriminate | reflexivity].
Qed.

Lemma disciplined_fetch_page (portal : list string -> string -> reply) (url : string) :
  disciplined (fetch_page portal url).
Proof.
  apply disciplined_quiet. intros w.
  destruct (fetch_page_effect portal url w) as [f [urls E]].
  exists (map EvGet urls). rewrite E. simpl. repeat split.
  intros e He. apply in_map_iff in He. destruct He as [u [<- _]]. discriminate.
Qed.

Lemma disciplined_save (time_time : list event -> Z) (html url : string) :
  disciplined (save_failed_html time_time html url).
Proof.
  apply disciplined_quiet. intros w.
  exists [EvSave (failed_filename url (time_time (history w))) html].
  simpl. repeat split. intros e [<-|[]]. discriminate.
Qed.

Lemma disciplined_tender_body
      (portal : list string -> string -> reply) (html_parser : string -> node)
      (time_time : list event -> Z) (tender_url : string) (count : Z) :
  disciplined (tender_body portal html_parser time_time tender_url count).
Proof.
  intros w.
  destruct (fetch_page_effect portal tender_url w) as [fetched [urls F]].
  assert (Quiet : forall res' extra,
             (forall e, In e extra -> forall i, e <> EvInsertOne i) ->
             tender_body portal html_parser time_time tender_url count w
             = (res', mkworld (history (requested urls w) ++ extra) (db w)
                              (email_body (snd (tender_body portal html_parser time_time
                                                            tender_url count w)))) ->
             exists evs,
               history (snd (tender_body portal html_parser time_time tender_url count w))
               = (history w ++ evs)%list
               /\ db (snd (tender_body portal html_parser time_time tender_url count w))
                  = (db w ++ inserted_of evs)%list
               /\ trace_ok (db w) evs).
  { intros res' extra Hq E. exists (map EvGet urls ++ extra)%list.
    assert (Hall : forall e, In e (map EvGet urls ++ extra)%list -> forall i, e <> EvInsertOne i).
    { intros e He. apply in_app_or in He. destruct He as [He|He]; [|apply Hq, He].
      apply in_map_iff in He. destruct He as [u [<- _]]. discriminate. }
    rewrite E at 1 2. cbn [snd history db requested].
    rewrite (inserted_of_quiet _ Hall), app_nil_r, app_assoc.
    repeat split. apply trace_ok_quiet, Hall. }
  destruct (truthy fetched) as [html|] eqn:T.
  2:{ apply (Quiet (Ret count) []); [intros e []|].
      rewrite (step_fetch_failed portal html_parser time_time tender_url count w _ fetched F T).
      cbn [snd]. rewrite app_nil_r. reflexivity. }
  destruct (get_tender_value html_parser html) as [[[r|]|]|x] eqn:G.
  - destruct (tender_id r) as [tid|] eqn:I.
    2:{ apply (Quiet (Ret count) []); [intros e []|].
        rewrite (step_missing_id portal html_parser time_time tender_url count w _ fetched F
                   html T r G); [|tauto].
        cbn [snd]. rewrite app_nil_r. reflexivity. }
    destruct (String.eqb_spec tid "") as [->|N1].
    { apply (Quiet (Ret count) []); [intros e []|].
      rewrite (step_missing_id portal html_parser time_time tender_url count w _ fetched F
                 html T r G); [|tauto].
      cbn [snd]. rewrite app_nil_r. reflexivity. }
    destruct (String.eqb_spec tid "SKIP") as [->|N2].
    { apply (Quiet (Ret count) []); [intros e []|].
      rewrite (step_missing_id portal html_parser time_time tender_url count w _ fetched F
                 html T r G); [|tauto].
      cbn [snd]. rewrite app_nil_r. reflexivity. }
    destruct (in_dec string_dec tid (db w)) as [S|S].
    + apply (Quiet (Ret count) [EvFindOne tid true]).
      { intros e [<-|[]]. discriminate. }
      rewrite (step_seen portal html_parser time_time tender_url count w _ fetched F
                 html T r tid G I N1 N2 S).
      reflexivity.
    + rewrite (step_reported portal html_parser time_time tender_url count w _ fetched
                 html r tid F T G I N1 N2 S).
      cbn [snd appended history db requested].
      exists (map EvGet urls
              ++ EvFindOne tid false :: EvInsertOne tid
                 :: map EvAppend (report_fragments tender_url tid r))%list.
      split.
      { unfold report_fragments. cbn [map]. rewrite <- !app_assoc. reflexivity. }
      split.
      { rewrite inserted_of_app, inserted_of_gets. simpl.
        rewrite inserted_of_appends. reflexivity. }
      apply trace_ok_app.
      { apply trace_ok_quiet. intros e He. apply in_map_iff in He.
        destruct He as [u [<- _]]. discriminate. }
      rewrite inserted_of_gets, app_nil_r. unfold report_fragments. cbn [map].
      apply trace_report; try assumption.
      { apply (details_below_threshold html_parser html r G). }
      apply trace_ok_quiet. intros e He. apply in_map_iff in He.
      destruct He as [u [<- _]]. discriminate.
  - apply (Quiet (Ret count) []); [intros e []|].
    rewrite (step_skip portal html_parser time_time tender_url count w _ fetched F html T G).
    cbn [snd]. rewrite app_nil_r. reflexivity.
  - apply (Quiet (Ret count)
                 [EvSave (failed_filename tender_url
                            (time_time (history (requested urls w)))) html;
                  EvAppend (failure_line tender_url)]).
    { intros e [<-|[<-|[]]]; discriminate. }
    rewrite (step_unparsable portal html_parser time_time tender_url count w _ fetched F
               html T G).
    reflexivity.
  - apply (Quiet (Raise x) []); [intros e []|].
    rewrite (step_parsed portal html_parser time_time tender_url count w _ fetched F html T).
    unfold bind, lift. rewrite G. cbn [snd]. rewrite app_nil_r. reflexivity.
Qed.

Lemma disciplined_department_body
      (portal : list string -> string -> reply) (html_parser : string -> node)
      (time_time : list event -> Z) (department_table : node) (dept : string) (u : unit) :
  disciplined (department_body portal html_parser time_time department_table dept u).
Proof.
  unfold department_body.
  apply disciplined_bind; [apply disciplined_append_body|]. intros _.
  destruct (extract_department_link department_table dept) as [dept_link|];
    [|apply disciplined_append_body].
  apply disciplined_bind; [apply disciplined_fetch_page|]. intros org.
  destruct (truthy org) as [org_page_html|]; [|apply disciplined_append_body].
  apply disciplined_bind; [apply disciplined_lift|]. intros tender_links.
  apply disciplined_bind; [apply disciplined_append_body|]. intros _.
  apply disciplined_bind.
  - apply disciplined_for_each. intros x acc. apply disciplined_tender_body.
  - intros count. apply disciplined_append_body.
Qed.

Lemma disciplined_main
      (portal : list string -> string -> reply) (html_parser : string -> node)
      (time_time : list event -> Z) (DEPARTMENTS : string) :
  disciplined (main portal html_parser time_time DEPARTMENTS).
Proof.
  unfold main.
  apply disciplined_bind.
  { apply disciplined_quiet. intros w. exists []. simpl. rewrite app_nil_r.
    repeat split. intros e []. }
  intros _.
  apply disciplined_bind; [apply disciplined_fetch_page|]. intros page.
  destruct (truthy page) as [main_page_html|]; [|apply disciplined_raise].
  destruct (get_department_table html_parser main_page_html) as [department_table|];
    [|apply disciplined_raise].
  apply disciplined_bind.
  { apply disciplined_for_each. intros x acc. apply disciplined_department_body. }
  intros _.
  apply disciplined_bind; [apply disciplined_append_body|]. intros _.
  apply disciplined_bind.
  { apply disciplined_quiet. intros w. exists []. simpl. rewrite app_nil_r.
    repeat split. intros e []. }
  intros body.
  apply (disciplined_event _ (EvSend body)); [discriminate | reflexivity].
Qed.

(** C1. Over the events [evs] of any run of [__main__], whether it ends
    or is cut short by an exception: the log grows by exactly the inserted
    ids; no id is inserted twice; no inserted id was in the log before the
    run or was inserted earlier in it; and every insertion stands right
    after the seen-check of that id, which found nothing, and right before
    the append of the fragment of a record that carries this id, a
    non-empty one, and passed the filter (value null or below the
    threshold). *)
Theorem seen_log_discipline :
  forall (portal : list string -> string -> reply) (html_parser : string -> node)
         (time_time : list event -> Z) (DEPARTMENTS : string) (w : world),
    let w' := snd (main portal html_parser time_time DEPARTMENTS w) in
    exists evs,
      history w' = (history w ++ evs)%list
      /\ db w' = (db w ++ inserted_of evs)%list
      /\ NoDup (inserted_of evs)
      /\ (forall i, In i (inserted_of evs) -> ~ In i (db w))
      /\ (forall pre i post,
            evs = (pre ++ EvInsertOne i :: post)%list ->
            ~ In i (db w ++ inserted_of pre)
            /\ exists pre' url r post',
                 pre = (pre' ++ [EvFindOne i false])%list
                 /\ post = EvAppend (fragment_head url i r) :: post'
                 /\ tender_id r = Some i /\ i <> ""
                 /\ below_threshold (tender_value r) = true).
Proof.
  intros portal p clock env w w'.
  destruct (disciplined_main portal p clock env w) as [evs [H [D T]]].
  exists evs. destruct (trace_ok_fresh _ _ T) as [ND Fr].
  split; [exact H|]. split; [exact D|]. split; [exact ND|]. split; [exact Fr|].
  intros pre i post E. split.
  - intros X. apply in_app_or in X.
    rewrite E, inserted_of_app in ND, Fr. simpl in ND, Fr.
    destruct X as [X|X].
    + apply (Fr i); [|exact X]. apply in_or_app. right. left. reflexivity.
    + apply NoDup_remove_2 in ND. apply ND. apply in_or_app. left. exact X.
  - apply (trace_ok_context _ _ T pre i post E).
Qed.

Lemma seen_log_discipline_witness :
  let w' := snd (main (Demo.serve Demo.scenario) Demo.parser Demo.clock
                      "Public Works Department" (Demo.start ["T0"])) in
  exists evs,
    history w' = evs /\ db w' = ("T0" :: inserted_of evs)%list /\ NoDup (inserted_of evs).
Proof.
  intros w'.
  destruct (seen_log_discipline (Demo.serve Demo.scenario) Demo.parser Demo.clock
              "Public Works Department" (Demo.start ["T0"])) as [evs [H [D [N _]]]].
  exists evs. split; [exact H|]. split; [exact D | exact N].
Defined.

(** ** The end-to-end scenario *)

(** C9, on the scenario. The portal lists Public Works Department with two
    tenders, T1 worth 2,500,000 and T2 worth 5,000,000.  The run inserts
    T1 only and reports T1 only, and its digest holds "Found 2 total
    tenders"; but the counter line is written with the word "Fount", so
    the digest does not hold "Found 1 new tenders for Public Works
    Department". *)
Theorem end_to_end_scenario :
  let run := main (Demo.serve Demo.scenario) Demo.parser Demo.clock
                  "Public Works Department" (Demo.start []) in
  let digest := email_body (snd run) in
  fst run = Ret tt
  /\ db (snd run) = ["T1"]
  /\ inserted_of (history (snd run)) = ["T1"]
  /\ digest
     = "<html><body><h2>Department: Public Works Department</h2>"
       ++ "<p>Found 2 total tenders.</p>"
       ++ "<p><a href='https://eproc.rajasthan.gov.in/nicgep/app?tender=1'>Tender URL</a><br>"
       ++ "Tender ID: T1<br>Tender Value in ₹: 2500000<br>Tender Type: Open Tender<br>"
       ++ "Organization Chain: PWD<br><b>Critical Dates:</b><br>"
       ++ "Published Date: 01-Jan-2025<br></p><hr>"
       ++ "Fount 1 new tenders for Public Works Department<br></body></html>"
  /\ PyStr.contains "Found 2 total tenders" digest = true
  /\ PyStr.contains "Tender ID: T1<br>" digest = true
  /\ PyStr.contains "Tender ID: T2<br>" digest = false
  /\ PyStr.contains "Fount 1 new tenders for Public Works Department" digest = true
  /\ PyStr.contains "Found 1 new tenders for Public Works Department" digest = false.
Proof.
  repeat split; vm_compute; reflexivity.
Qed.

(** * Further properties of the extractors *)

(** ** The department table *)

(** X1. [get_department_table] returns [None] exactly when the page has
    fewer than three tables of class [list_table]; a table it returns is
    the third such table of the page in document order. *)
Theorem department_table_is_third_marked :
  forall (html_parser : string -> node) (html : string),
    let tables := find_all_class "table" "list_table" (html_parser html) in
    (get_department_table html_parser html = None <-> (List.length tables < 3)%nat)
    /\ (forall t, get_department_table html_parser html = Some t ->
                  nth_error tables 2 = Some t
                  /\ is_tag "table" t = true
                  /\ has_class "list_table" t = true
                  /\ In t (descendants (html_parser html))).
Proof.
  intros p html tables. unfold get_department_table. fold tables.
  destruct (Nat.ltb_spec (List.length tables) 3) as [L|L].
  - split; [split; auto|]. intros t H. discriminate H.
  - split.
    + split; [|intros H; exfalso; apply (Nat.lt_irrefl 3); eapply Nat.le_lt_trans; eauto].
      intros H. apply nth_error_None in H. exfalso.
      apply (Nat.lt_irrefl 2). eapply Nat.lt_le_trans; [|exact H]. exact L.
    + intros t H. split; [exact H|].
      apply nth_error_In in H. unfold tables, find_all_class in H.
      apply filter_In in H. destruct H as [I B].
      apply andb_true_iff in B. destruct B as [B1 B2]. auto.
Qed.

Lemma department_table_is_third_marked_witness :
  get_department_table Demo.parser Demo.directory_html
  = Some (nth 2 (children Demo.directory_tree) (Text ""))
  /\ is_tag "table" (nth 2 (children Demo.directory_tree) (Text "")) = true
  /\ has_class "list_table" (nth 2 (children Demo.directory_tree) (Text "")) = true.
Proof.
  assert (H : get_department_table Demo.parser Demo.directory_html
              = Some (nth 2 (children Demo.directory_tree) (Text "")))
    by (vm_compute; reflexivity).
  split; [exact H|].
  destruct (proj2 (department_table_is_third_marked Demo.parser Demo.directory_html) _ H)
    as [_ [T [C _]]].
  split; [exact T | exact C].
Defined.

(** ** The tender links of an organisation page *)

Lemma tender_rows_app (a b : list node) :
  tender_rows (a ++ b) = (tender_rows a ++ tender_rows b)%list.
Proof.
  induction a as [|row a IH]; [reflexivity|].
  cbn [app tender_rows].
  destruct (nth_error (find_all "td" row) 4) as [c4|]; [|exact IH].
  destruct (cell_link c4); [|exact IH].
  rewrite IH. reflexivity.
Qed.

Lemma tender_rows_length (rows : list node) :
  (List.length (tender_rows rows) <= List.length rows)%nat.
Proof.
  induction rows as [|row rows IH]; [apply Nat.le_refl|].
  cbn [tender_rows List.length].
  destruct (nth_error (find_all "td" row) 4) as [c4|]; [|apply Nat.le_le_succ_r, IH].
  destruct (cell_link c4); [|apply Nat.le_le_succ_r, IH].
  cbn [List.length]. apply le_n_S, IH.
Qed.

Lemma tender_rows_origin (rows : list node) (l : string) :
  In l (tender_rows rows) ->
  exists row cell a_tag href,
    In row rows
    /\ nth_error (find_all "td" row) 4 = Some cell
    /\ find "a" cell = Some a_tag
    /\ attr "href" a_tag = Some href
    /\ l = BASE_URL ++ PyStr.strip href.
Proof.
  induction rows as [|row rows IH]; [intros []|].
  assert (Later : In l (tender_rows rows) ->
                  exists row0 cell a_tag href,
                    In row0 (row :: rows)
                    /\ nth_error (find_all "td" row0) 4 = Some cell
                    /\ find "a" cell = Some a_tag
                    /\ attr "href" a_tag = Some href
                    /\ l = BASE_URL ++ PyStr.strip href).
  { intros H. destruct (IH H) as [r [c [a [h [I R]]]]]. exists r, c, a, h.
    split; [right; exact I | exact R]. }
  cbn [tender_rows].
  destruct (nth_error (find_all "td" row) 4) as [c4|] eqn:E4; [|exact Later].
  destruct (cell_link c4) as [u|] eqn:L; [|exact Later].
  intros [<-|H]; [|exact (Later H)].
  destruct (cell_link_some c4 u L) as [a [h [F [A U]]]].
  exists row, c4, a, h. split; [left; reflexivity|]. auto.
Qed.

(** X2. [get_tender_links_from_org_page] raises [IndexError] exactly when
    the page has no table of class [list_table]; otherwise it reads the
    rows of the first such table: there are at most as many links as rows,
    and every link is [BASE_URL] followed by the stripped href of the
    first anchor in the fifth cell of one of these rows. *)
Theorem tender_links_origin :
  forall (html_parser : string -> node) (org_html : string),
    let tables := find_all_class "table" "list_table" (html_parser org_html) in
    (get_tender_links_from_org_page html_parser org_html = Raise IndexError
     <-> tables = [])
    /\ (forall tender_links,
          get_tender_links_from_org_page html_parser org_html = Ret tender_links ->
          exists table,
            hd_error tables = Some table
            /\ (List.length tender_links <= List.length (find_all "tr" table))%nat
            /\ forall l, In l tender_links ->
                 exists row cell a_tag href,
                   In row (find_all "tr" table)
                   /\ nth_error (find_all "td" row) 4 = Some cell
                   /\ find "a" cell = Some a_tag
                   /\ attr "href" a_tag = Some href
                   /\ l = BASE_URL ++ PyStr.strip href).
Proof.
  intros p html tables. unfold get_tender_links_from_org_page. fold tables.
  destruct tables as [|table rest].
  - split; [split; reflexivity|]. intros links H. discriminate H.
  - split; [split; discriminate|].
    intros links H. injection H as <-. exists table.
    split; [reflexivity|]. split; [apply tender_rows_length|].
    apply tender_rows_origin.
Qed.

Lemma tender_links_origin_witness :
  get_tender_links_from_org_page Demo.parser Demo.org_html
  = Ret [Demo.tender1_url; Demo.tender2_url]
  /\ exists table,
       hd_error (find_all_class "table" "list_table" (Demo.parser Demo.org_html)) = Some table
       /\ (2 <= List.length (find_all "tr" table))%nat.
Proof.
  assert (H : get_tender_links_from_org_page Demo.parser Demo.org_html
              = Ret [Demo.tender1_url; Demo.tender2_url]) by (vm_compute; reflexivity).
  split; [exact H|].
  destruct (proj2 (tender_links_origin Demo.parser Demo.org_html) _ H) as [table [T [L _]]].
  exists table. split; [exact T | exact L].
Defined.

(** X3. Rows are read in order and independently: the links of a list of
    rows followed by another are the links of the first followed by the
    links of the second, and a row with fewer than five cells adds none. *)
Theorem tender_rows_skip_short :
  forall (before after : list node) (row : node),
    (List.length (find_all "td" row) < 5)%nat ->
    tender_rows (before ++ row :: after) = (tender_rows before ++ tender_rows after)%list.
Proof.
  intros before after row H.
  rewrite tender_rows_app. cbn [tender_rows].
  assert (E : nth_error (find_all "td" row) 4 = None).
  { apply nth_error_None. apply Nat.lt_succ_r. exact H. }
  rewrite E. reflexivity.
Qed.

Lemma tender_rows_skip_short_witness :
  (List.length (find_all "td" (tr [td [Text "S.No"]])) < 5)%nat
  /\ tender_rows ([Demo.org_row_tree "1" "/a"] ++ tr [td [Text "S.No"]]
                  :: [Demo.org_row_tree "2" "/b"])
     = (tender_rows [Demo.org_row_tree "1" "/a"]
        ++ tender_rows [Demo.org_row_tree "2" "/b"])%list.
Proof.
  assert (H : (List.length (find_all "td" (tr [td [Text "S.No"]])) < 5)%nat)
    by (vm_compute; repeat constructor).
  split; [exact H|].
  exact (tender_rows_skip_short [Demo.org_row_tree "1" "/a"] [Demo.org_row_tree "2" "/b"] _ H).
Defined.

(** ** First match in the department table *)

Lemma department_rows_app (a b : list node) (dept_name : string) :
  department_rows (a ++ b) dept_name =
  match department_rows a dept_name with
  | Some full_link => Some full_link
  | None => department_rows b dept_name
  end.
Proof.
  induction a as [|row a IH]; [reflexivity|].
  cbn [app department_rows].
  destruct (nth_error (find_all "td" row) 1) as [c1|]; [|exact IH].
  destruct (nth_error (find_all "td" row) 2) as [c2|]; [|exact IH].
  destruct (String.eqb (get_text_strip c1) dept_name); [|exact IH].
  destruct (cell_link c2); [reflexivity | exact IH].
Qed.

(** X4. The first row that reads the department name and holds a link
    decides: when no earlier row resolves the name, the link of that row
    is returned whatever rows follow it. *)
Theorem department_first_match :
  forall (before after : list node) (row c1 c2 : node) (dept_name full_link : string),
    department_rows before dept_name = None ->
    nth_error (find_all "td" row) 1 = Some c1 ->
    nth_error (find_all "td" row) 2 = Some c2 ->
    get_text_strip c1 = dept_name ->
    cell_link c2 = Some full_link ->
    department_rows (before ++ row :: after) dept_name = Some full_link.
Proof.
  intros before after row c1 c2 name url B N1 N2 Q L.
  rewrite department_rows_app, B. cbn [department_rows].
  rewrite N1, N2, Q, String.eqb_refl, L. reflexivity.
Qed.

Lemma department_first_match_witness :
  let row := tr [td [Text "1"]; td [Text "Public Works Department"];
                 td [link "/nicgep/app?org=pwd" "2"]] in
  let other := tr [td [Text "2"]; td [Text "Public Works Department"];
                   td [link "/nicgep/app?org=other" "5"]] in
  department_rows [tr [td [Text "S.No"]; td [Text "Organisation Name"]]]
                  "Public Works Department" = None
  /\ department_rows ([tr [td [Text "S.No"]; td [Text "Organisation Name"]]]
                      ++ row :: [other]) "Public Works Department"
     = Some Demo.org_url.
Proof.
  intros row other.
  assert (B : department_rows [tr [td [Text "S.No"]; td [Text "Organisation Name"]]]
                              "Public Works Department" = None) by reflexivity.
  split; [exact B|].
  apply (department_first_match _ [other] row (td [Text "Public Works Department"])
           (td [link "/nicgep/app?org=pwd" "2"]) _ _ B); reflexivity.
Defined.

(** ** The summary table of a detail page *)

(** X5. The tender id and the organisation chain are extracted together
    or not at all: when either cannot be read, both are absent. *)
Theorem id_and_chain_together :
  forall (soup : node),
    (fst (get_tender_id_organization_chain soup) = None
     <-> snd (get_tender_id_organization_chain soup) = None)
    /\ (forall tid,
          fst (get_tender_id_organization_chain soup) = Some tid ->
          exists table first_row third_row chain,
            find_class "table" "tablebg" soup = Some table
            /\ nth_error (find_all "tr" table) 0 = Some first_row
            /\ nth_error (find_all "tr" table) 2 = Some third_row
            /\ second_cell_bold third_row = Some tid
            /\ second_cell_bold first_row = Some chain
            /\ snd (get_tender_id_organization_chain soup) = Some chain).
Proof.
  intros soup. unfold get_tender_id_organization_chain.
  destruct (find_class "table" "tablebg" soup) as [table|];
    [|split; [split; reflexivity | intros tid H; discriminate H]].
  destruct (nth_error (find_all "tr" table) 0) as [r0|] eqn:E0;
    [|split; [split; reflexivity | intros tid H; discriminate H]].
  destruct (nth_error (find_all "tr" table) 2) as [r2|] eqn:E2;
    [|split; [split; reflexivity | intros tid H; discriminate H]].
  destruct (second_cell_bold r2) as [i|] eqn:B2;
    [|split; [split; reflexivity | intros tid H; discriminate H]].
  destruct (second_cell_bold r0) as [c|] eqn:B0;
    [|split; [split; reflexivity | intros tid H; discriminate H]].
  split; [split; discriminate|].
  intros tid H. injection H as <-. exists table, r0, r2, c.
  repeat split; assumption.
Qed.

Lemma id_and_chain_together_witness :
  fst (get_tender_id_organization_chain Demo.anonymous_tree) = None
  /\ snd (get_tender_id_organization_chain Demo.anonymous_tree) = None.
Proof.
  assert (H : fst (get_tender_id_organization_chain Demo.anonymous_tree) = None)
    by reflexivity.
  split; [exact H|].
  exact (proj1 (proj1 (id_and_chain_together Demo.anonymous_tree)) H).
Defined.

(** ** Exceptions of the detail extractor *)

(** X6. [get_tender_value] raises nothing but [OverflowError], and it
    raises it exactly when the value cell is found and its cleaned text,
    not NA and not empty, is read by [float] as an infinity. *)
Theorem detail_extractor_raises :
  forall (html_parser : string -> node) (detail_html : string) (e : exn),
    get_tender_value html_parser detail_html = Raise e
    <-> e = OverflowError
        /\ exists value_text neg,
             tender_value_text (html_parser detail_html) = Some value_text
             /\ PyStr.upper (clean_value_text value_text) <> "NA"
             /\ clean_value_text value_text <> ""
             /\ PyFloat.of_string (clean_value_text value_text) = Some (PyFloat.Inf neg).
Proof.
  intros p html e.
  destruct (tender_value_text (p html)) as [t|] eqn:Ht.
  2:{ unfold get_tender_value. rewrite Ht. split; [discriminate|].
      intros [_ [t [neg [H _]]]]. discriminate H. }
  rewrite (get_tender_value_found p html t Ht). unfold convert_tender_value.
  set (c := clean_value_text t).
  assert (Inj : forall P : Prop,
             (exists value_text neg,
                 Some t = Some value_text
                 /\ PyStr.upper (clean_value_text value_text) <> "NA"
                 /\ clean_value_text value_text <> ""
                 /\ PyFloat.of_string (clean_value_text value_text) = Some (PyFloat.Inf neg)) ->
             (PyStr.upper c <> "NA" -> c <> "" ->
              forall neg, PyFloat.of_string c = Some (PyFloat.Inf neg) -> P) -> P).
  { intros P [t' [neg [E [A [B C]]]]] K. injection E as <-. exact (K A B neg C). }
  destruct (String.eqb_spec (PyStr.upper c) "NA") as [E1|E1]; cbn [orb].
  { cbn [below_threshold]. split; [discriminate|].
    intros [_ H]. apply (Inj _ H). intros A. contradiction. }
  destruct (String.eqb_spec c "") as [E2|E2].
  { cbn [below_threshold]. split; [discriminate|].
    intros [_ H]. apply (Inj _ H). intros _ B. contradiction. }
  destruct (PyFloat.of_string c) as [[|neg|neg m x]|] eqn:F; cbn [PyFloat.to_int].
  - split; [discriminate|]. intros [_ H]. apply (Inj _ H). intros _ _ n X. discriminate X.
  - split.
    + intros H. injection H as <-. split; [reflexivity|].
      exists t, neg. repeat split; assumption.
    + intros [-> _]. reflexivity.
  - match goal with |- context [if ?b then _ else _] => destruct b end;
      (split; [discriminate|]; intros [_ H]; apply (Inj _ H); intros _ _ n X; discriminate X).
  - split; [discriminate|]. intros [_ H]. apply (Inj _ H). intros _ _ n X. discriminate X.
Qed.

Lemma detail_extractor_raises_witness :
  get_tender_value Demo.parser (Demo.detail_html "T1" "inf") = Raise OverflowError
  /\ exists value_text neg,
       tender_value_text (Demo.parser (Demo.detail_html "T1" "inf")) = Some value_text
       /\ PyFloat.of_string (clean_value_text value_text) = Some (PyFloat.Inf neg).
Proof.
  assert (H : get_tender_value Demo.parser (Demo.detail_html "T1" "inf") = Raise OverflowError)
    by (vm_compute; reflexivity).
  split; [exact H|].
  destruct (proj1 (detail_extractor_raises Demo.parser _ _) H)
    as [_ [t [neg [A [_ [_ B]]]]]].
  exists t, neg. split; [exact A | exact B].
Defined.

(** * Further properties of the string handling *)

(** ** The name of a saved page *)

Lemma sanitize_length (s : string) : String.length (PyStr.sanitize s) = String.length s.
Proof.
  unfold PyStr.sanitize. induction s as [|c r IH]; simpl; [reflexivity|].
  rewrite IH. reflexivity.
Qed.

Lemma sanitize_safe (s : string) : all_chars safe_char (PyStr.sanitize s) = true.
Proof.
  unfold PyStr.sanitize. induction s as [|c r IH]; [reflexivity|].
  cbn [PyStr.map_chars all_chars]. rewrite IH, andb_true_r.
  unfold safe_char. destruct (PyStr.is_alnum c) eqn:A.
  - rewrite A. reflexivity.
  - reflexivity.
Qed.

Lemma safe_no_slash (s : string) : all_chars safe_char s = true -> occurs "/" s = false.
Proof.
  induction s as [|c r IH]; [reflexivity|].
  cbn [all_chars occurs]. intros H. apply andb_true_iff in H. destruct H as [H1 H2].
  rewrite (IH H2), orb_false_r.
  destruct (Ascii.eqb_spec "/"%char c) as [<-|N]; [discriminate H1 | reflexivity].
Qed.

Lemma uint_no_slash (d : Decimal.uint) : occurs "/" (NilEmpty.string_of_uint d) = false.
Proof. induction d; simpl; auto. Qed.

Lemma of_Z_no_slash (n : Z) : occurs "/" (PyStr.of_Z n) = false.
Proof.
  unfold PyStr.of_Z, NilZero.string_of_int.
  destruct (Z.to_int n) as [d|d]; unfold NilZero.string_of_uint.
  - destruct d; try apply uint_no_slash. reflexivity.
  - cbn [occurs]. destruct d; try apply uint_no_slash. reflexivity.
Qed.

(** X7. The name under which a page is saved lies directly in the
    directory [failed_tender_html]: the part after the directory has no
    slash, since the URL is replaced, character by character, by a text of
    the same length made of letters, digits and underscores. *)
Theorem saved_name_stays_in_directory :
  forall (tender_url : string) (now : Z),
    String.length (PyStr.sanitize tender_url) = String.length tender_url
    /\ all_chars safe_char (PyStr.sanitize tender_url) = true
    /\ exists name,
         failed_filename tender_url now = "failed_tender_html/" ++ name
         /\ occurs "/" name = false.
Proof.
  intros url now. split; [apply sanitize_length|]. split; [apply sanitize_safe|].
  exists ("failed_" ++ PyStr.sanitize url ++ "_" ++ PyStr.of_Z now ++ ".txt").
  split; [reflexivity|].
  rewrite !occurs_append, (safe_no_slash _ (sanitize_safe url)), of_Z_no_slash.
  reflexivity.
Qed.

(** ** The configured departments *)

Lemma split_on_length (sep : ascii) (s : string) :
  List.length (PyStr.split_on sep s) = S (count_char sep s).
Proof.
  induction s as [|c r IH]; [reflexivity|].
  cbn [PyStr.split_on count_char]. rewrite (Ascii.eqb_sym sep c).
  destruct (Ascii.eqb c sep).
  - cbn [List.length]. rewrite IH. reflexivity.
  - destruct (PyStr.split_on sep r) as [|w ws]; [discriminate IH|]. exact IH.
Qed.

Lemma split_on_pieces (sep : ascii) (s : string) :
  forall piece, In piece (PyStr.split_on sep s) -> occurs sep piece = false.
Proof.
  induction s as [|c r IH]; intros piece H.
  - destruct H as [<-|[]]. reflexivity.
  - cbn [PyStr.split_on] in H. destruct (Ascii.eqb c sep) eqn:E.
    + destruct H as [<-|H]; [reflexivity | apply IH, H].
    + destruct (PyStr.split_on sep r) as [|w ws] eqn:S.
      * destruct H as [<-|[]]. cbn [occurs]. rewrite (Ascii.eqb_sym sep c), E. reflexivity.
      * destruct H as [<-|H].
        -- cbn [occurs]. rewrite (Ascii.eqb_sym sep c), E.
           apply IH. left. reflexivity.
        -- apply IH. right. exact H.
Qed.

Lemma rstrip_idempotent (s : string) : PyStr.rstrip (PyStr.rstrip s) = PyStr.rstrip s.
Proof.
  induction s as [|c r IH]; [reflexivity|].
  cbn [PyStr.rstrip]. destruct (PyStr.rstrip r) as [|e t] eqn:R.
  - destruct (PyStr.is_space c) eqn:Sp; [reflexivity|].
    cbn [PyStr.rstrip]. rewrite Sp. reflexivity.
  - change (PyStr.rstrip (String c (String e t)))
      with (match PyStr.rstrip (String e t) with
            | EmptyString => if PyStr.is_space c then EmptyString else String c EmptyString
            | x => String c x
            end).
    rewrite IH. reflexivity.
Qed.

Lemma rstrip_head (c : ascii) (r : string) :
  PyStr.is_space c = false -> exists t, PyStr.rstrip (String c r) = String c t.
Proof.
  intros H. cbn [PyStr.rstrip]. destruct (PyStr.rstrip r) as [|e t].
  - rewrite H. exists EmptyString. reflexivity.
  - exists (String e t). reflexivity.
Qed.

Lemma lstrip_head (s : string) :
  PyStr.lstrip s = EmptyString
  \/ exists c r, PyStr.lstrip s = String c r /\ PyStr.is_space c = false.
Proof.
  induction s as [|c r IH]; [left; reflexivity|].
  cbn [PyStr.lstrip]. destruct (PyStr.is_space c) eqn:Sp; [exact IH|].
  right. exists c, r. auto.
Qed.

Lemma strip_idempotent (s : string) : PyStr.strip (PyStr.strip s) = PyStr.strip s.
Proof.
  unfold PyStr.strip. destruct (lstrip_head s) as [E|[c [r [E Sp]]]]; rewrite E.
  - reflexivity.
  - destruct (rstrip_head c r Sp) as [t R]. rewrite R.
    rewrite (lstrip_id c t Sp), <- R. apply rstrip_idempotent.
Qed.

(** X8. [departments_to_search] never yields an empty list: there is one
    name more than there are commas in [DEPARTMENTS] (a single empty name
    for an empty value); every name is free of commas and of leading and
    trailing whitespace. *)
Theorem departments_shape :
  forall (DEPARTMENTS : string),
    List.length (departments_to_search DEPARTMENTS) = S (count_char "," DEPARTMENTS)
    /\ forall dept, In dept (departments_to_search DEPARTMENTS) ->
                    PyStr.strip dept = dept /\ PyStr.contains "," dept = false.
Proof.
  intros env. unfold departments_to_search. split.
  - rewrite length_map. apply split_on_length.
  - intros dept H. apply in_map_iff in H. destruct H as [raw [<- I]].
    split; [apply strip_idempotent|].
    rewrite contains_char. unfold PyStr.strip.
    apply rstrip_no_new, lstrip_no_new. exact (split_on_pieces _ _ _ I).
Qed.

Lemma departments_shape_witness :
  In "Public Works Department" (departments_to_search " Public Works Department ,Forest")
  /\ PyStr.strip "Public Works Department" = "Public Works Department"
  /\ PyStr.contains "," "Public Works Department" = false.
Proof.
  assert (H : In "Public Works Department"
                 (departments_to_search " Public Works Department ,Forest"))
    by (left; reflexivity).
  split; [exact H|].
  exact (proj2 (departments_shape " Public Works Department ,Forest") _ H).
Defined.
